(** * Todo API: a shallow embedding of [src/FastAPI/src/main.py]

    The service keeps one process-wide dict [items_store] and exposes
    create / list / stats / get / update / delete over it.  The embedding
    passes the store explicitly, takes the two readings of the environment
    ([uuid4()] and [datetime.now(timezone.utc)]) as inputs of each request,
    and returns the HTTP response next to the new store.  Calls to [logger]
    have no effect on the store or the responses and are left out. *)

From Stdlib Require Import ZArith NArith List String Ascii Bool Lia.
From Stdlib Require Import DecimalString.
From Stdlib Require Import Permutation Sorted.
From Stdlib Require Import Floats Uint63.
Import ListNotations.

Open Scope string_scope.
Open Scope Z_scope.

(* ===================================================================== *)
(** ** Python values used by the service *)
(* ===================================================================== *)

(** [uuid.UUID]: a 128-bit number. *)
Definition UUID := N.

(** Timezone-aware UTC [datetime]: microseconds since the epoch.  Aware
    datetimes of one zone are totally ordered, as [Z.compare] is. *)
Definition datetime := Z.

(** What the embedding takes from the Python runtime without unfolding it:
    [str.lower], [datetime.isoformat] (what [jsonable_encoder] applies to a
    datetime) and [str(uuid)]. *)
Class PyRuntime := {
  str_lower : string -> string;
  isoformat : datetime -> string;
  uuid_str : UUID -> string
}.

(** [needle in hay] on [str]: [needle] is a prefix of some suffix of [hay]. *)
Fixpoint str_contains (needle hay : string) : bool :=
  if String.prefix needle hay then true
  else match hay with
       | EmptyString => false
       | String _ hay' => str_contains needle hay'
       end.

(** [len(s)] on [str]. *)
Definition str_len (s : string) : Z := Z.of_nat (String.length s).

(** Truthiness of an attribute holding a [bool] or [None]. *)
Definition bool_truthy (b : option bool) : bool :=
  match b with
  | Some true => true
  | _ => false
  end.

(** [x == b] where [x] holds a [bool] or [None] and [b] is a [bool]. *)
Definition py_eq_bool (x : option bool) (b : bool) : bool :=
  match x with
  | Some x' => Bool.eqb x' b
  | None => false
  end.

(** Index normalisation of a slice bound against a list of length [n]. *)
Definition slice_index (n i : Z) : Z :=
  if i <? 0 then Z.max (i + n) 0 else Z.min i n.

(** [l[lo:hi]]. *)
Definition py_slice {A : Type} (l : list A) (lo hi : Z) : list A :=
  let n := Z.of_nat (List.length l) in
  let a := slice_index n lo in
  let b := slice_index n hi in
  firstn (Z.to_nat (b - a)) (skipn (Z.to_nat a) l).

(** [l.sort(key=key, reverse=True)].  Python's sort is stable, also with
    [reverse=True]: elements with equal keys keep their relative order.
    The model is the stable insertion sort into descending key order. *)
Fixpoint insert_reverse {A : Type} (key : A -> Z) (x : A) (l : list A) : list A :=
  match l with
  | [] => [x]
  | y :: l' =>
      if key x <? key y then y :: insert_reverse key x l' else x :: l
  end.

Definition sort_reverse {A : Type} (key : A -> Z) (l : list A) : list A :=
  fold_right (insert_reverse key) [] l.

(** *** Floating point: [int / int] and [round(x, ndigits)] *)

(** Conversion of an [int] to [float]; exact below 2^53. *)
Definition float_of_int (n : Z) : float := PrimFloat.of_uint63 (Uint63.of_Z n).

(** [a / b] on two [int]s: the correctly rounded quotient, which for
    operands below 2^53 is the IEEE division of their exact conversions.
    The service only divides under [total_items > 0]. *)
Definition int_truediv (a b : Z) : float :=
  PrimFloat.div (float_of_int a) (float_of_int b).

(** Nearest integer to [a / 2^k], ties to the even neighbour. *)
Definition round_half_even_shift (a k : Z) : Z :=
  let d := 2 ^ k in
  let q := a / d in
  let r := a mod d in
  if 2 * r <? d then q
  else if d <? 2 * r then q + 1
  else if Z.even q then q else q + 1.

(** [round(x, ndigits)] on a [float]: CPython rounds the exact binary value
    of [x] to [ndigits] decimals (ties to even) and converts the decimal
    back to the nearest double.  Zeros, infinities and NaN come back
    unchanged, and so do the doubles with an exponent that is not negative
    (integers from 2^52 on).  The conversion back is the IEEE division
    [n / 10^ndigits], exact as a model while [n] stays below 2^53, which
    covers every rate in [0, 100]. *)
Definition py_round (x : float) (ndigits : Z) : float :=
  match Prim2SF x with
  | S754_finite s m e =>
      if 0 <=? e then x
      else
        let n := round_half_even_shift (Z.pos m * 10 ^ ndigits) (- e) in
        let r := PrimFloat.div (float_of_int n) (float_of_int (10 ^ ndigits)) in
        if s then PrimFloat.opp r else r
  | _ => x
  end.

(** A Python number as [get_items_stats] returns it: the [int] literal [0]
    or the [float] that [round] gives. *)
Inductive pynum :=
| PyInt (n : Z)
| PyFloat (f : float).

(* ===================================================================== *)
(** ** JSON documents and HTTP responses *)
(* ===================================================================== *)

#[warnings="-register-all"]
Inductive json :=
| JNull
| JBool (b : bool)
| JInt (n : Z)
| JFloat (f : float)
| JStr (s : string)
| JArr (l : list json)
| JObj (members : list (string * json)).

Inductive content :=
| JSONContent (j : json)
| NoContent
| PlainText (s : string).

Module Response.
Record t := mk { status_code : Z; body : content }.
End Response.

Definition HTTP_201_CREATED := 201.
Definition HTTP_204_NO_CONTENT := 204.
Definition HTTP_404_NOT_FOUND := 404.
Definition HTTP_422_UNPROCESSABLE_ENTITY := 422.

(** One entry of a pydantic validation error list, with its keys [type],
    [loc] and [msg]; the keys [input] and [ctx] of an entry are left out. *)
Module ErrorDetails.
Record t := mk { type : string; loc : list string; msg : string }.
End ErrorDetails.

(** Exceptions that leave an endpoint or the request validation in front
    of it. *)
Inductive exn :=
| HTTPException (status_code : Z) (detail : string)
| RequestValidationError (errors : list ErrorDetails.t)
| AttributeError
| KeyError.

(** Fallible code: a value or a raised exception. *)
Inductive result (A : Type) :=
| Ok (a : A)
| Raise (e : exn).
Arguments Ok {A} a.
Arguments Raise {A} e.

Definition bind {A B : Type} (r : result A) (k : A -> result B) : result B :=
  match r with
  | Ok a => k a
  | Raise e => Raise e
  end.

Notation "x <- r ;; k" := (bind r (fun x => k))
  (at level 61, r at next level, right associativity).

(** All-or-nothing traversal: the first exception raised by [f] ends it. *)
Fixpoint filter_raising {A : Type} (f : A -> result bool) (l : list A)
  : result (list A) :=
  match l with
  | [] => Ok []
  | x :: l' =>
      b <- f x ;;
      r <- filter_raising f l' ;;
      Ok (if b then x :: r else r)
  end.

(* ===================================================================== *)
(** ** The pydantic models *)
(* ===================================================================== *)

(** [ItemCreate(ItemBase)]: a validated request body. *)
Module ItemCreate.
Record t := mk { text : string; is_done : bool }.
End ItemCreate.

(** The two fields of [ItemUpdate]. *)
Inductive field_name := F_text | F_is_done.

Definition field_name_eqb (f g : field_name) : bool :=
  match f, g with
  | F_text, F_text | F_is_done, F_is_done => true
  | _, _ => false
  end.

(** [ItemUpdate]: both fields are [Optional] with default [None];
    [model_fields_set] records which ones the request supplied, a supplied
    [null] included. *)
Module ItemUpdate.
Record t := mk {
  text : option string;
  is_done : option bool;
  model_fields_set : list field_name
}.
End ItemUpdate.

(** [ItemResponse(ItemBase)].  [text] and [is_done] are declared [str] and
    [bool]; [update_item] assigns them with [setattr], which does not
    validate, so after an update that supplied [null] the attribute holds
    [None].  The embedding keeps that value. *)
Module ItemResponse.
Record t := mk {
  text : option string;
  is_done : option bool;
  id : UUID;
  created_at : datetime;
  updated_at : option datetime
}.
End ItemResponse.

(** [ErrorResponse]. *)
Module ErrorResponse.
Record t := mk { detail : string; status_code : Z; timestamp : datetime }.
End ErrorResponse.

(** A [(field, value)] pair of [model_dump], the value typed by its field. *)
Inductive attr_value :=
| text_value (v : option string)
| is_done_value (v : option bool).

(** [item_update.model_dump(exclude_unset=True)]: the supplied fields, in
    declaration order. *)
Definition model_dump_exclude_unset (u : ItemUpdate.t) : list attr_value :=
  (if existsb (field_name_eqb F_text) (ItemUpdate.model_fields_set u)
   then [text_value (ItemUpdate.text u)] else [])
  ++
  (if existsb (field_name_eqb F_is_done) (ItemUpdate.model_fields_set u)
   then [is_done_value (ItemUpdate.is_done u)] else []).

(** [setattr(item, field, value)]. *)
Definition setattr (item : ItemResponse.t) (a : attr_value) : ItemResponse.t :=
  match a with
  | text_value v =>
      ItemResponse.mk v (ItemResponse.is_done item) (ItemResponse.id item)
        (ItemResponse.created_at item) (ItemResponse.updated_at item)
  | is_done_value v =>
      ItemResponse.mk (ItemResponse.text item) v (ItemResponse.id item)
        (ItemResponse.created_at item) (ItemResponse.updated_at item)
  end.

Definition set_updated_at (item : ItemResponse.t) (now : datetime)
  : ItemResponse.t :=
  ItemResponse.mk (ItemResponse.text item) (ItemResponse.is_done item)
    (ItemResponse.id item) (ItemResponse.created_at item) (Some now).

(* ===================================================================== *)
(** ** [items_store : dict[UUID, ItemResponse]] *)
(* ===================================================================== *)

(** A Python dict keeps its keys in insertion order, and [values()] follows
    it; the list of bindings is the dict, oldest insertion first. *)
Definition items_store_t := list (UUID * ItemResponse.t).

(** [d.get(k)]. *)
Fixpoint dict_get (d : items_store_t) (k : UUID) : option ItemResponse.t :=
  match d with
  | [] => None
  | (k', v) :: d' => if N.eqb k k' then Some v else dict_get d' k
  end.

(** [k in d]. *)
Definition dict_contains (d : items_store_t) (k : UUID) : bool :=
  match dict_get d k with
  | Some _ => true
  | None => false
  end.

(** [d[k] = v]: a new key goes last, a key already present keeps its place. *)
Fixpoint dict_set (d : items_store_t) (k : UUID) (v : ItemResponse.t)
  : items_store_t :=
  match d with
  | [] => [(k, v)]
  | (k', v') :: d' =>
      if N.eqb k k' then (k', v) :: d' else (k', v') :: dict_set d' k v
  end.

(** [del d[k]] on a key that is present. *)
Fixpoint dict_remove (d : items_store_t) (k : UUID) : items_store_t :=
  match d with
  | [] => []
  | (k', v') :: d' =>
      if N.eqb k k' then d' else (k', v') :: dict_remove d' k
  end.

(** [del d[k]]: [KeyError] on a key that is absent. *)
Definition dict_del (d : items_store_t) (k : UUID) : result items_store_t :=
  if dict_contains d k then Ok (dict_remove d k) else Raise KeyError.

(** [list(d.values())]. *)
Definition dict_values (d : items_store_t) : list ItemResponse.t :=
  map snd d.

(** [len(d)]. *)
Definition dict_len (d : items_store_t) : Z := Z.of_nat (List.length d).

(* ===================================================================== *)
(** ** Request bodies before validation *)
(* ===================================================================== *)

(** The JSON body of [POST /items], read field by field: the text sent and
    the flag when the request carries one. *)
Module ItemCreateBody.
Record t := mk { text : string; is_done : option bool }.
End ItemCreateBody.

(** The JSON body of [PUT /items/{item_id}]: for each field, whether the
    request carries it ([Some]) and then its value, [null] being [None]. *)
Module ItemUpdateBody.
Record t := mk {
  text : option (option string);
  is_done : option (option bool)
}.
End ItemUpdateBody.

(** [Field(..., min_length=1, max_length=500)] on a [str]. *)
Definition validate_text (t : string) : list ErrorDetails.t :=
  if str_len t <? 1 then
    [ErrorDetails.mk "string_too_short" ["body"; "text"]
       "String should have at least 1 character"]
  else if 500 <? str_len t then
    [ErrorDetails.mk "string_too_long" ["body"; "text"]
       "String should have at most 500 characters"]
  else [].

(** Validation of the body against [ItemCreate]: [is_done] defaults to
    [False]. *)
Definition ItemCreate_validate (b : ItemCreateBody.t) : result ItemCreate.t :=
  match validate_text (ItemCreateBody.text b) with
  | [] =>
      Ok (ItemCreate.mk (ItemCreateBody.text b)
            (match ItemCreateBody.is_done b with
             | Some d => d
             | None => false
             end))
  | errors => Raise (RequestValidationError errors)
  end.

(** Validation of the body against [ItemUpdate]: the length bounds apply to
    a text that is a string; [null] passes ([Optional]); a field the body
    does not carry takes its default [None] and stays out of
    [model_fields_set]. *)
Definition ItemUpdate_validate (b : ItemUpdateBody.t) : result ItemUpdate.t :=
  let errors :=
    match ItemUpdateBody.text b with
    | Some (Some t) => validate_text t
    | _ => []
    end in
  match errors with
  | [] =>
      Ok (ItemUpdate.mk
            (match ItemUpdateBody.text b with Some v => v | None => None end)
            (match ItemUpdateBody.is_done b with Some v => v | None => None end)
            ((match ItemUpdateBody.text b with Some _ => [F_text] | None => [] end)
             ++
             (match ItemUpdateBody.is_done b with Some _ => [F_is_done] | None => [] end)))
  | _ => Raise (RequestValidationError errors)
  end.

(** The [Query(...)] bounds of [list_items]: [limit] in 1..100, [skip] at
    least 0, [search] of at least one character when present. *)
Definition validate_list_query (limit skip : Z) (search : option string)
  : list ErrorDetails.t :=
  (if limit <? 1 then
     [ErrorDetails.mk "greater_than_equal" ["query"; "limit"]
        "Input should be greater than or equal to 1"]
   else if 100 <? limit then
     [ErrorDetails.mk "less_than_equal" ["query"; "limit"]
        "Input should be less than or equal to 100"]
   else [])
  ++
  (if skip <? 0 then
     [ErrorDetails.mk "greater_than_equal" ["query"; "skip"]
        "Input should be greater than or equal to 0"]
   else [])
  ++
  (match search with
   | Some q =>
       if str_len q <? 1 then
         [ErrorDetails.mk "string_too_short" ["query"; "search"]
            "String should have at least 1 character"]
       else []
   | None => []
   end).

(** What [get_items_stats] returns. *)
Module Stats.
Record t := mk {
  total_items : Z;
  completed_items : Z;
  pending_items : Z;
  completion_rate : pynum
}.
End Stats.

(** [sum(...)] over a generator of [int]s. *)
Definition py_sum (l : list Z) : Z := fold_left Z.add l 0.

(** The environment of one request: the reading of
    [datetime.now(timezone.utc)] and the value [uuid4()] draws. *)
Module Env.
Record t := mk { now : datetime; uuid4 : UUID }.
End Env.

(** The requests the routes of the application accept. *)
Inductive request :=
| POST_items (body : ItemCreateBody.t)
| GET_items (limit skip : option Z) (is_done : option bool)
    (search : option string)
| GET_items_stats
| GET_item (item_id : UUID)
| PUT_item (item_id : UUID) (body : ItemUpdateBody.t)
| DELETE_item (item_id : UUID).

(* ===================================================================== *)
(** ** The endpoints *)
(* ===================================================================== *)

Section Service.
Context `{PyRuntime}.

Definition json_option {A : Type} (f : A -> json) (o : option A) : json :=
  match o with
  | Some a => f a
  | None => JNull
  end.

(** Serialisation of an [ItemResponse] into the response body. *)
Definition encode_item (item : ItemResponse.t) : json :=
  JObj [("text", json_option JStr (ItemResponse.text item));
        ("is_done", json_option JBool (ItemResponse.is_done item));
        ("id", JStr (uuid_str (ItemResponse.id item)));
        ("created_at", JStr (isoformat (ItemResponse.created_at item)));
        ("updated_at",
          json_option (fun t => JStr (isoformat t))
            (ItemResponse.updated_at item))].

(** [jsonable_encoder(error_response)]. *)
Definition encode_error (e : ErrorResponse.t) : json :=
  JObj [("detail", JStr (ErrorResponse.detail e));
        ("status_code", JInt (ErrorResponse.status_code e));
        ("timestamp", JStr (isoformat (ErrorResponse.timestamp e)))].

Definition encode_error_details (e : ErrorDetails.t) : json :=
  JObj [("type", JStr (ErrorDetails.type e));
        ("loc", JArr (map JStr (ErrorDetails.loc e)));
        ("msg", JStr (ErrorDetails.msg e))].

Definition encode_pynum (x : pynum) : json :=
  match x with
  | PyInt n => JInt n
  | PyFloat f => JFloat f
  end.

Definition encode_stats (st : Stats.t) : json :=
  JObj [("total_items", JInt (Stats.total_items st));
        ("completed_items", JInt (Stats.completed_items st));
        ("pending_items", JInt (Stats.pending_items st));
        ("completion_rate", encode_pynum (Stats.completion_rate st))].

(** The dependency [get_item_by_id]. *)
Definition get_item_by_id (items_store : items_store_t) (item_id : UUID)
  : result ItemResponse.t :=
  if negb (dict_contains items_store item_id) then
    Raise (HTTPException HTTP_404_NOT_FOUND
             ("Item with id " ++ uuid_str item_id ++ " not found"))
  else
    match dict_get items_store item_id with
    | Some item => Ok item
    | None => Raise KeyError
    end.

(** [@app.exception_handler(HTTPException)]. *)
Definition http_exception_handler (now : datetime)
    (exc_status_code : Z) (exc_detail : string) : Response.t :=
  let error_response :=
    ErrorResponse.mk exc_detail exc_status_code now in
  Response.mk exc_status_code (JSONContent (encode_error error_response)).

(** The application registers no handler for [RequestValidationError];
    FastAPI's own [request_validation_exception_handler] answers it:
    status 422 and the body [{"detail": exc.errors()}]. *)
Definition request_validation_exception_handler
    (errors : list ErrorDetails.t) : Response.t :=
  Response.mk HTTP_422_UNPROCESSABLE_ENTITY
    (JSONContent (JObj [("detail", JArr (map encode_error_details errors))])).

(** Dispatch of a raised exception to its handler; an exception without
    one ends as the server's plain 500. *)
Definition handle_exception (now : datetime) (e : exn) : Response.t :=
  match e with
  | HTTPException status_code detail =>
      http_exception_handler now status_code detail
  | RequestValidationError errors =>
      request_validation_exception_handler errors
  | AttributeError | KeyError =>
      Response.mk 500 (PlainText "Internal Server Error")
  end.

(** [create_item]. *)
Definition create_item (items_store : items_store_t) (item_id : UUID)
    (now : datetime) (item : ItemCreate.t)
  : items_store_t * ItemResponse.t :=
  let new_item :=
    ItemResponse.mk (Some (ItemCreate.text item))
      (Some (ItemCreate.is_done item)) item_id now None in
  (dict_set items_store item_id new_item, new_item).

(** The test of the search comprehension, [search_lower in
    item.text.lower()]: an attribute holding [None] has no [lower]. *)
Definition text_matches (search_lower : string) (item : ItemResponse.t)
  : result bool :=
  match ItemResponse.text item with
  | Some t => Ok (str_contains search_lower (str_lower t))
  | None => Raise AttributeError
  end.

(** [list_items]. *)
Definition list_items (items_store : items_store_t) (limit skip : Z)
    (is_done : option bool) (search : option string)
  : result (list ItemResponse.t) :=
  let all_items := dict_values items_store in
  let filtered_items := all_items in
  let filtered_items :=
    match is_done with
    | Some is_done =>
        filter (fun item => py_eq_bool (ItemResponse.is_done item) is_done)
          filtered_items
    | None => filtered_items
    end in
  filtered_items <-
    match search with
    | Some (String _ _ as search) =>
        let search_lower := str_lower search in
        filter_raising (text_matches search_lower) filtered_items
    | _ => Ok filtered_items
    end ;;
  let filtered_items := sort_reverse ItemResponse.created_at filtered_items in
  let paginated_items := py_slice filtered_items skip (skip + limit) in
  Ok paginated_items.

(** [get_items_stats]. *)
Definition get_items_stats (items_store : items_store_t) : Stats.t :=
  let total_items := dict_len items_store in
  let completed_items :=
    py_sum (map (fun _ => 1)
              (filter (fun item => bool_truthy (ItemResponse.is_done item))
                 (dict_values items_store))) in
  let pending_items := total_items - completed_items in
  Stats.mk total_items completed_items pending_items
    (if 0 <? total_items then
       PyFloat
         (py_round
            (PrimFloat.mul (int_truediv completed_items total_items)
               (float_of_int 100)) 2)
     else PyInt 0).

(** [get_item]. *)
Definition get_item (item : ItemResponse.t) : ItemResponse.t := item.

(** [update_item].  [item] is the object the dict holds under [item_id]
    (the dependency returned [items_store[item_id]]), so assigning its
    attributes changes the stored binding in place. *)
Definition update_item (items_store : items_store_t) (item_id : UUID)
    (now : datetime) (item_update : ItemUpdate.t) (item : ItemResponse.t)
  : items_store_t * ItemResponse.t :=
  let update_data := model_dump_exclude_unset item_update in
  match update_data with
  | [] => (items_store, item)
  | _ :: _ =>
      let item := fold_left setattr update_data item in
      let item := set_updated_at item now in
      (dict_set items_store item_id item, item)
  end.

(** [delete_item]. *)
Definition delete_item (items_store : items_store_t) (item : ItemResponse.t)
  : result items_store_t :=
  dict_del items_store (ItemResponse.id item).

(* ------------------------------------------------------------------- *)
(** *** The routes: validation, dependencies, endpoint, response *)
(* ------------------------------------------------------------------- *)

Definition default (d : Z) (o : option Z) : Z :=
  match o with
  | Some v => v
  | None => d
  end.

(** One request against the store.  A route first resolves its
    dependency ([get_item_by_id], whose exception leaves at once), then
    validates body and query, and only then calls the endpoint. *)
Definition route (items_store : items_store_t) (env : Env.t)
    (req : request) : result (items_store_t * Response.t) :=
  match req with
  | POST_items body =>
      item <- ItemCreate_validate body ;;
      let (items_store', new_item) :=
        create_item items_store (Env.uuid4 env) (Env.now env) item in
      Ok (items_store',
          Response.mk HTTP_201_CREATED (JSONContent (encode_item new_item)))
  | GET_items limit skip is_done search =>
      let limit := default 10 limit in
      let skip := default 0 skip in
      match validate_list_query limit skip search with
      | [] =>
          items <- list_items items_store limit skip is_done search ;;
          Ok (items_store,
              Response.mk 200 (JSONContent (JArr (map encode_item items))))
      | errors => Raise (RequestValidationError errors)
      end
  | GET_items_stats =>
      Ok (items_store,
          Response.mk 200
            (JSONContent (encode_stats (get_items_stats items_store))))
  | GET_item item_id =>
      item <- get_item_by_id items_store item_id ;;
      Ok (items_store,
          Response.mk 200 (JSONContent (encode_item (get_item item))))
  | PUT_item item_id body =>
      item <- get_item_by_id items_store item_id ;;
      item_update <- ItemUpdate_validate body ;;
      let (items_store', item') :=
        update_item items_store item_id (Env.now env) item_update item in
      Ok (items_store',
          Response.mk 200 (JSONContent (encode_item item')))
  | DELETE_item item_id =>
      item <- get_item_by_id items_store item_id ;;
      items_store' <- delete_item items_store item ;;
      Ok (items_store', Response.mk HTTP_204_NO_CONTENT NoContent)
  end.

(** The application: the route's answer, or the handler's answer to the
    exception it raised, the store then being as the request found it. *)
Definition app (items_store : items_store_t) (env : Env.t) (req : request)
  : items_store_t * Response.t :=
  match route items_store env req with
  | Ok r => r
  | Raise e => (items_store, handle_exception (Env.now env) e)
  end.

End Service.

(* ===================================================================== *)
(** ** The specification's side: predicates the theorems are stated with *)
(* ===================================================================== *)

Section Specification.
Context `{PyRuntime}.

(** The specification's List filters, in its words: the optional equality
    filter on [is_done] and the optional case-insensitive substring
    filter of [search] on [text]. *)
Definition spec_is_done_filter (is_done : option bool)
    (item : ItemResponse.t) : bool :=
  match is_done with
  | None => true
  | Some wanted =>
      match ItemResponse.is_done item with
      | Some d => Bool.eqb d wanted
      | None => false
      end
  end.

Definition spec_search_filter (search : option string)
    (item : ItemResponse.t) : bool :=
  match search with
  | None => true
  | Some q =>
      match ItemResponse.text item with
      | Some t => str_contains (str_lower q) (str_lower t)
      | None => false
      end
  end.

Definition spec_passes (is_done : option bool) (search : option string)
    (item : ItemResponse.t) : bool :=
  spec_is_done_filter is_done item && spec_search_filter search item.

End Specification.

(** Newest first: nothing later in the list was created after an item
    before it. *)
Definition newest_first (l : list ItemResponse.t) : Prop :=
  StronglySorted
    (fun x y => ItemResponse.created_at y <= ItemResponse.created_at x) l.

(** The items of [l] created at [t], in the order [l] has them. *)
Definition created_at_eq (t : datetime) (l : list ItemResponse.t)
  : list ItemResponse.t :=
  filter (fun x => ItemResponse.created_at x =? t) l.

(** Ties keep the order of [candidates]: for every creation time, the items
    created then appear in [l] as they do in [candidates]. *)
Definition ties_in_order_of (candidates l : list ItemResponse.t) : Prop :=
  forall t, created_at_eq t l = created_at_eq t candidates.

(** The stored attributes have their declared types: every [text] is a
    [str], every [is_done] a [bool]. *)
Definition text_is_str (item : ItemResponse.t) : bool :=
  match ItemResponse.text item with
  | Some _ => true
  | None => false
  end.

Definition is_done_is_bool (item : ItemResponse.t) : bool :=
  match ItemResponse.is_done item with
  | Some _ => true
  | None => false
  end.

Definition texts_are_str (items_store : items_store_t) : bool :=
  forallb text_is_str (dict_values items_store).

Definition flags_are_bool (items_store : items_store_t) : bool :=
  forallb is_done_is_bool (dict_values items_store).

(** A dict has each key once. *)
Definition dict_wf (items_store : items_store_t) : Prop :=
  NoDup (map fst items_store).

(** [updated_at] is absent or not before [created_at]. *)
Definition timestamps_ordered (item : ItemResponse.t) : Prop :=
  match ItemResponse.updated_at item with
  | None => True
  | Some u => ItemResponse.created_at item <= u
  end.

Definition store_timestamps_ordered (items_store : items_store_t) : Prop :=
  Forall (fun kv => timestamps_ordered (snd kv)) items_store.

(** What a request may assume of its environment: [uuid4()] draws an
    identifier no stored item has, and the clock has not gone back behind
    the creation time of the item an update addresses. *)
Definition env_ok (items_store : items_store_t) (env : Env.t)
    (req : request) : Prop :=
  match req with
  | POST_items _ => dict_get items_store (Env.uuid4 env) = None
  | PUT_item item_id _ =>
      forall item, dict_get items_store item_id = Some item ->
                   ItemResponse.created_at item <= Env.now env
  | _ => True
  end.

(** The registry after three creations A, B, C in that order on an empty
    store, with the three items [create_item] returned. *)
Definition created_in_order (idA idB idC : UUID) (tA tB tC : datetime)
    (a b c : ItemCreate.t)
  : items_store_t * (ItemResponse.t * ItemResponse.t * ItemResponse.t) :=
  let (s1, item_a) := create_item [] idA tA a in
  let (s2, item_b) := create_item s1 idB tB b in
  let (s3, item_c) := create_item s2 idC tC c in
  (s3, (item_a, item_b, item_c)).

(** The number of items whose [is_done] is true. *)
Fixpoint count_done (l : list ItemResponse.t) : Z :=
  match l with
  | [] => 0
  | item :: l' =>
      match ItemResponse.is_done item with
      | Some true => 1 + count_done l'
      | _ => count_done l'
      end
  end.

(** The error body [{detail: string, status_code: int, timestamp: ISO-8601
    string}], and the bodies of that shape. *)
Definition error_body `{PyRuntime} (detail : string) (status_code : Z)
    (timestamp : datetime) : content :=
  JSONContent
    (JObj [("detail", JStr detail);
           ("status_code", JInt status_code);
           ("timestamp", JStr (isoformat timestamp))]).

Definition error_body_shape `{PyRuntime} (c : content) : Prop :=
  exists detail status_code timestamp,
    c = error_body detail status_code timestamp.

(** What one request may do to the timestamps of the registry, from the
    store [before] it to the store [after] it at clock reading [now]: the
    store stays a dict, every [updated_at] is absent or not before its
    [created_at], an item that stays keeps its [created_at], and an item
    that appears was created at [now] with [updated_at] absent. *)
Definition registry_step_ok (now : datetime)
    (before after : items_store_t) : Prop :=
  dict_wf after
  /\ store_timestamps_ordered after
  /\ (forall k item item',
         dict_get before k = Some item -> dict_get after k = Some item' ->
         ItemResponse.created_at item' = ItemResponse.created_at item)
  /\ (forall k item',
         dict_get before k = None -> dict_get after k = Some item' ->
         ItemResponse.created_at item' = now
         /\ ItemResponse.updated_at item' = None).

(** The item an update leaves: each supplied field at its supplied value,
    each other field as before, [updated_at] at the time of the update. *)
Definition updated_item (item : ItemResponse.t) (body : ItemUpdateBody.t)
    (now : datetime) : ItemResponse.t :=
  ItemResponse.mk
    (match ItemUpdateBody.text body with
     | Some v => v
     | None => ItemResponse.text item
     end)
    (match ItemUpdateBody.is_done body with
     | Some v => v
     | None => ItemResponse.is_done item
     end)
    (ItemResponse.id item)
    (ItemResponse.created_at item)
    (Some now).

(** The update body passes validation: a supplied text that is a string
    has 1 to 500 characters. *)
Definition update_body_valid (body : ItemUpdateBody.t) : Prop :=
  match ItemUpdateBody.text body with
  | Some (Some t) => 1 <= str_len t <= 500
  | _ => True
  end.

(** The update body supplies at least one field. *)
Definition update_body_nonempty (body : ItemUpdateBody.t) : Prop :=
  ItemUpdateBody.text body <> None \/ ItemUpdateBody.is_done body <> None.

(* ===================================================================== *)
(** ** A concrete runtime and concrete stores, for running the model *)
(* ===================================================================== *)

Definition ascii_lower (c : ascii) : ascii :=
  let n := N_of_ascii c in
  if ((65 <=? n) && (n <=? 90))%N then ascii_of_N (n + 32) else c.

Fixpoint lower_ascii (s : string) : string :=
  match s with
  | EmptyString => EmptyString
  | String c s' => String (ascii_lower c) (lower_ascii s')
  end.

(** ASCII lower-casing, and decimal renderings of times and identifiers. *)
Definition example_runtime : PyRuntime :=
  {| str_lower := lower_ascii;
     isoformat := fun t => NilZero.string_of_int (Z.to_int t);
     uuid_str := fun u => NilZero.string_of_uint (N.to_uint u) |}.

(** A string of [n] letters x. *)
Fixpoint x_times (n : nat) : string :=
  match n with
  | O => EmptyString
  | S n' => String "x" (x_times n')
  end.

Definition example_item (id : UUID) (text : string) (is_done : bool)
    (created_at : datetime) : ItemResponse.t :=
  ItemResponse.mk (Some text) (Some is_done) id created_at None.

(** Three items created in the order A, B, C at the times 1, 2, 3. *)
Definition item_A := example_item 1%N "Item 1" true 1.
Definition item_B := example_item 2%N "Item 2" false 2.
Definition item_C := example_item 3%N "Item 3" true 3.
Definition store_ABC : items_store_t :=
  [(1%N, item_A); (2%N, item_B); (3%N, item_C)].

(** Three items created in the order A, B, C within one tick of the clock. *)
Definition tie_A := example_item 1%N "Item 1" false 7.
Definition tie_B := example_item 2%N "Item 2" false 7.
Definition tie_C := example_item 3%N "Item 3" false 7.
Definition store_tie : items_store_t :=
  fst (created_in_order 1%N 2%N 3%N 7 7 7
         (ItemCreate.mk "Item 1" false) (ItemCreate.mk "Item 2" false)
         (ItemCreate.mk "Item 3" false)).

(** Five items, two of them done. *)
Definition store_five : items_store_t :=
  [(1%N, example_item 1%N "Done 1" true 1);
   (2%N, example_item 2%N "Done 2" true 2);
   (3%N, example_item 3%N "Pending 1" false 3);
   (4%N, example_item 4%N "Pending 2" false 4);
   (5%N, example_item 5%N "Pending 3" false 5)].

(* ===================================================================== *)
(** ** Predicates on stores and requests, and runs of requests *)
(* ===================================================================== *)

(** Every item is stored under its own [id]. *)
Definition ids_consistent (items_store : items_store_t) : Prop :=
  Forall (fun kv => ItemResponse.id (snd kv) = fst kv) items_store.

(** The bounds [ItemBase] declares for [text]: a string of 1 to 500
    characters. *)
Definition text_valid (item : ItemResponse.t) : Prop :=
  match ItemResponse.text item with
  | Some t => 1 <= str_len t <= 500
  | None => False
  end.

Definition texts_valid (items_store : items_store_t) : Prop :=
  Forall (fun kv => text_valid (snd kv)) items_store.

(** The request is an update whose body carries [text: null]. *)
Definition supplies_null_text (req : request) : Prop :=
  match req with
  | PUT_item _ body => ItemUpdateBody.text body = Some None
  | _ => False
  end.

(** The path parameter [item_id] of the routes that have one. *)
Definition request_item_id (req : request) : option UUID :=
  match req with
  | GET_item item_id | PUT_item item_id _ | DELETE_item item_id =>
      Some item_id
  | _ => None
  end.

(** The request only reads: the three [GET] routes. *)
Definition is_read (req : request) : bool :=
  match req with
  | GET_items _ _ _ _ | GET_items_stats | GET_item _ => true
  | _ => false
  end.

(** The answer of the [HTTPException] handler to the 404 that
    [get_item_by_id] raises. *)
Definition not_found_response `{PyRuntime} (now : datetime) (item_id : UUID)
  : Response.t :=
  http_exception_handler now HTTP_404_NOT_FOUND
    ("Item with id " ++ uuid_str item_id ++ " not found").

(** The store after a sequence of requests, each with its environment. *)
Fixpoint run `{PyRuntime} (items_store : items_store_t)
    (trace : list (Env.t * request)) : items_store_t :=
  match trace with
  | [] => items_store
  | (env, req) :: rest => run (fst (app items_store env req)) rest
  end.

(* ===================================================================== *)
(** ** Lists: slices, the stable sort, filters *)
(* ===================================================================== *)

Section ListFacts.
Context {A : Type}.

Lemma In_firstn (n : nat) (l : list A) (x : A) :
  In x (firstn n l) -> In x l.
Proof.
  revert l; induction n as [|n IH]; intros [|y l]; simpl; try tauto.
  intros [->|Hin]; [now left | right; now apply IH].
Qed.

Lemma In_skipn (n : nat) (l : list A) (x : A) :
  In x (skipn n l) -> In x l.
Proof.
  revert l; induction n as [|n IH]; intros [|y l]; simpl; try tauto.
  intros Hin; right; now apply IH.
Qed.

(** With bounds that are not negative, [l[skip:skip + limit]] drops
    [skip] elements and keeps at most [limit]. *)
Lemma py_slice_skip_limit (l : list A) (skip limit : Z) :
  0 <= skip -> 0 <= limit ->
  py_slice l skip (skip + limit)
  = firstn (Z.to_nat limit) (skipn (Z.to_nat skip) l).
Proof.
  intros Hs Hl. unfold py_slice, slice_index.
  destruct (Z.ltb_spec skip 0) as [?|_]; [lia|].
  destruct (Z.ltb_spec (skip + limit) 0) as [?|_]; [lia|].
  set (n := Z.of_nat (List.length l)).
  destruct (Z.le_gt_cases n skip) as [Hge|Hlt].
  - rewrite (skipn_all2 (n := Z.to_nat skip)) by lia.
    rewrite (skipn_all2 (n := Z.to_nat (Z.min skip n))) by lia.
    now rewrite !firstn_nil.
  - replace (Z.min skip n) with skip by lia.
    destruct (Z.le_gt_cases (skip + limit) n) as [Hin|Hout].
    + f_equal. lia.
    + rewrite !firstn_all2; try reflexivity;
        rewrite length_skipn; lia.
Qed.


Lemma filter_filter_andb (f g : A -> bool) (l : list A) :
  filter g (filter f l) = filter (fun x => f x && g x) l.
Proof.
  induction l as [|x l IH]; simpl; [reflexivity|].
  destruct (f x); simpl; [destruct (g x)|]; now rewrite IH.
Qed.

Lemma filter_raising_total (f : A -> result bool) (g : A -> bool)
    (l : list A) :
  (forall x, In x l -> f x = Ok (g x)) ->
  filter_raising f l = Ok (filter g l).
Proof.
  induction l as [|x l IH]; intros Hf; simpl; [reflexivity|].
  rewrite (Hf x) by now left. simpl.
  rewrite IH by (intros y Hy; apply Hf; now right). simpl.
  reflexivity.
Qed.

Variable key : A -> Z.

Let newer_or_same (x y : A) : Prop := key y <= key x.
Let keyed (t : Z) (l : list A) : list A := filter (fun x => key x =? t) l.

Lemma insert_reverse_perm (x : A) (l : list A) :
  Permutation (insert_reverse key x l) (x :: l).
Proof.
  induction l as [|y l IH]; simpl; [reflexivity|].
  destruct (key x <? key y).
  - rewrite IH. apply perm_swap.
  - reflexivity.
Qed.

Lemma insert_reverse_sorted (x : A) (l : list A) :
  StronglySorted newer_or_same l ->
  StronglySorted newer_or_same (insert_reverse key x l).
Proof.
  induction 1 as [|y l Hs IH Hall]; simpl.
  - repeat constructor.
  - destruct (Z.ltb_spec (key x) (key y)) as [Hlt|Hge].
    + constructor; [exact IH|].
      apply (Permutation_Forall (Permutation_sym (insert_reverse_perm x l))).
      constructor; [unfold newer_or_same; lia | exact Hall].
    + constructor; [now constructor|].
      constructor; [exact Hge|].
      eapply Forall_impl; [|exact Hall].
      unfold newer_or_same; intros z Hz; lia.
Qed.

(** Insertion never moves [x] past an element of its own key. *)
Lemma insert_reverse_keyed (t : Z) (x : A) (l : list A) :
  keyed t (insert_reverse key x l) = keyed t (x :: l).
Proof.
  unfold keyed.
  induction l as [|y l IH]; simpl; [reflexivity|].
  destruct (Z.ltb_spec (key x) (key y)) as [Hlt|Hge]; [|reflexivity].
  simpl in *. rewrite IH.
  destruct (Z.eqb_spec (key x) t), (Z.eqb_spec (key y) t);
    try reflexivity; lia.
Qed.

Lemma sort_reverse_perm (l : list A) : Permutation (sort_reverse key l) l.
Proof.
  induction l as [|x l IH]; simpl; [constructor|].
  rewrite insert_reverse_perm. now constructor.
Qed.

Lemma sort_reverse_sorted (l : list A) :
  StronglySorted newer_or_same (sort_reverse key l).
Proof.
  induction l as [|x l IH]; simpl; [constructor|].
  now apply insert_reverse_sorted.
Qed.

Lemma sort_reverse_keyed (t : Z) (l : list A) :
  keyed t (sort_reverse key l) = keyed t l.
Proof.
  induction l as [|x l IH]; simpl; [reflexivity|].
  rewrite insert_reverse_keyed. unfold keyed in *; simpl.
  now rewrite IH.
Qed.

Lemma sort_reverse_length (l : list A) :
  List.length (sort_reverse key l) = List.length l.
Proof. apply Permutation_length, sort_reverse_perm. Qed.

Lemma In_sort_reverse (l : list A) (x : A) :
  In x (sort_reverse key l) <-> In x l.
Proof.
  split; apply Permutation_in;
    [|apply Permutation_sym]; apply sort_reverse_perm.
Qed.

End ListFacts.

(* ===================================================================== *)
(** ** List: the filter, sort and paginate pipeline *)
(* ===================================================================== *)

Section ListItems.
Context `{PyRuntime}.

Lemma texts_are_str_In (items_store : items_store_t) (item : ItemResponse.t) :
  texts_are_str items_store = true ->
  In item (dict_values items_store) ->
  exists t, ItemResponse.text item = Some t.
Proof.
  unfold texts_are_str; rewrite forallb_forall; intros Hall Hin.
  specialize (Hall item Hin). unfold text_is_str in Hall.
  destruct (ItemResponse.text item) as [t|]; [now exists t | discriminate].
Qed.

Lemma flags_are_bool_In (items_store : items_store_t) (item : ItemResponse.t) :
  flags_are_bool items_store = true ->
  In item (dict_values items_store) ->
  exists d, ItemResponse.is_done item = Some d.
Proof.
  unfold flags_are_bool; rewrite forallb_forall; intros Hall Hin.
  specialize (Hall item Hin). unfold is_done_is_bool in Hall.
  destruct (ItemResponse.is_done item) as [d|]; [now exists d | discriminate].
Qed.

(** The two comprehensions of [list_items] keep what the specification's
    filters pass. *)
Lemma is_done_comprehension (is_done : option bool)
    (l : list ItemResponse.t) :
  match is_done with
  | Some wanted =>
      filter (fun item => py_eq_bool (ItemResponse.is_done item) wanted) l
  | None => l
  end = filter (spec_is_done_filter is_done) l.
Proof.
  destruct is_done as [wanted|]; simpl.
  - apply filter_ext; intros item; unfold py_eq_bool; reflexivity.
  - induction l as [|x l IH]; simpl; [reflexivity | now rewrite <- IH].
Qed.

Lemma search_comprehension (search : option string)
    (l : list ItemResponse.t) :
  search <> Some "" ->
  (search <> None -> forall item, In item l ->
                     exists t, ItemResponse.text item = Some t) ->
  match search with
  | Some (String _ _ as search) =>
      filter_raising (text_matches (str_lower search)) l
  | _ => Ok l
  end = Ok (filter (spec_search_filter search) l).
Proof.
  intros Hne Htext. destruct search as [[|c q]|].
  - now contradiction Hne.
  - apply filter_raising_total. intros item Hin.
    destruct (Htext ltac:(discriminate) item Hin) as [t Ht].
    unfold text_matches, spec_search_filter. now rewrite Ht.
  - f_equal. induction l as [|x l IH]; simpl; [reflexivity|].
    f_equal. apply IH. intros Hn; now contradiction Hn.
Qed.

(** [list_items] as one expression over the specification's filter. *)
Lemma list_items_pipeline (items_store : items_store_t) (limit skip : Z)
    (is_done : option bool) (search : option string) :
  0 <= limit -> 0 <= skip -> search <> Some "" ->
  (search <> None -> texts_are_str items_store = true) ->
  list_items items_store limit skip is_done search
  = Ok (firstn (Z.to_nat limit)
          (skipn (Z.to_nat skip)
             (sort_reverse ItemResponse.created_at
                (filter (spec_passes is_done search)
                   (dict_values items_store))))).
Proof.
  intros Hl Hs Hne Htext. unfold list_items.
  rewrite is_done_comprehension.
  rewrite search_comprehension; [|exact Hne|].
  - simpl. rewrite py_slice_skip_limit by assumption.
    now rewrite filter_filter_andb.
  - intros Hsome item Hin. apply filter_In in Hin as [Hin _].
    eapply texts_are_str_In; eauto.
Qed.

(** Newest first with ties in a given order leaves one list only. *)
Lemma newest_first_unique (candidates l1 l2 : list ItemResponse.t) :
  newest_first l1 -> newest_first l2 ->
  ties_in_order_of candidates l1 -> ties_in_order_of candidates l2 ->
  l1 = l2.
Proof.
  intros S1 S2 T1 T2.
  assert (T : forall t, created_at_eq t l1 = created_at_eq t l2)
    by (intros t; now rewrite T1, T2).
  clear T1 T2 candidates. revert l2 S2 T.
  induction S1 as [|x l1 S1 IH F1]; intros l2 S2 T.
  - destruct l2 as [|y l2]; [reflexivity|].
    specialize (T (ItemResponse.created_at y)).
    unfold created_at_eq in T; simpl in T.
    rewrite Z.eqb_refl in T. discriminate.
  - destruct S2 as [|y l2 S2 F2].
    + specialize (T (ItemResponse.created_at x)).
      unfold created_at_eq in T; simpl in T.
      rewrite Z.eqb_refl in T. discriminate.
    + assert (Hkey : ItemResponse.created_at x = ItemResponse.created_at y).
      { destruct (Z.eq_dec (ItemResponse.created_at x)
                    (ItemResponse.created_at y)) as [E|N]; [exact E|].
        exfalso.
        assert (Hx : In x (y :: l2)).
        { pose proof (T (ItemResponse.created_at x)) as Tx.
          unfold created_at_eq in Tx; simpl in Tx.
          rewrite Z.eqb_refl in Tx.
          assert (Hi : In x (filter
                        (fun z => ItemResponse.created_at z
                                  =? ItemResponse.created_at x) (y :: l2)))
            by (simpl; rewrite <- Tx; now left).
          now apply filter_In in Hi as [Hi _]. }
        assert (Hy : In y (x :: l1)).
        { pose proof (T (ItemResponse.created_at y)) as Ty.
          unfold created_at_eq in Ty; simpl in Ty.
          rewrite (Z.eqb_refl (ItemResponse.created_at y)) in Ty.
          assert (Hi : In y (filter
                        (fun z => ItemResponse.created_at z
                                  =? ItemResponse.created_at y) (x :: l1)))
            by (simpl; rewrite Ty; now left).
          now apply filter_In in Hi as [Hi _]. }
        destruct Hx as [E|Hx]; [now subst|].
        destruct Hy as [E|Hy]; [now subst|].
        rewrite Forall_forall in F1, F2.
        specialize (F1 y Hy). specialize (F2 x Hx). simpl in F1, F2. lia. }
      pose proof (T (ItemResponse.created_at x)) as Tx.
      unfold created_at_eq in Tx; simpl in Tx.
      rewrite Z.eqb_refl in Tx. rewrite <- Hkey, Z.eqb_refl in Tx.
      injection Tx as Exy _. subst y. f_equal.
      apply IH; [exact S2|].
      intros t. specialize (T t). unfold created_at_eq in *; simpl in T.
      destruct (ItemResponse.created_at x =? t); [now injection T | exact T].
Qed.

Lemma sort_reverse_newest_first (l : list ItemResponse.t) :
  newest_first (sort_reverse ItemResponse.created_at l).
Proof. apply sort_reverse_sorted. Qed.

Lemma sort_reverse_ties (l : list ItemResponse.t) :
  ties_in_order_of l (sort_reverse ItemResponse.created_at l).
Proof. intros t. apply sort_reverse_keyed. Qed.

Lemma filter_andb_length (f g : ItemResponse.t -> bool)
    (l : list ItemResponse.t) :
  (List.length (filter (fun x => f x && g x) l)
   <= List.length (filter g l))%nat.
Proof.
  induction l as [|x l IH]; simpl; [lia|].
  destruct (f x), (g x); simpl; lia.
Qed.

End ListItems.

Lemma In_py_slice {A : Type} (l : list A) (lo hi : Z) (x : A) :
  In x (py_slice l lo hi) -> In x l.
Proof.
  unfold py_slice; intros Hin.
  apply In_firstn in Hin. now apply In_skipn in Hin.
Qed.

(** What a raising filter returns, it took from its input. *)
Lemma filter_raising_incl {A : Type} (f : A -> result bool) (l r : list A) :
  filter_raising f l = Ok r -> forall x, In x r -> In x l.
Proof.
  revert r; induction l as [|y l IH]; intros r Hr x Hin.
  - injection Hr as <-. contradiction.
  - cbn [filter_raising] in Hr.
    destruct (f y) as [b|e]; cbn [bind] in Hr; [|discriminate].
    destruct (filter_raising f l) as [r'|e]; cbn [bind] in Hr;
      [|discriminate].
    injection Hr as <-.
    destruct b; [destruct Hin as [->|Hin]; [now left|]|];
      right; now apply (IH r').
Qed.

Section ListClaims.
Context `{PyRuntime}.

(** X18.  On a store whose texts are strings (needed only when a search
    term is given) and for valid arguments ([limit] in 1..100, [skip] at
    least 0, [search] absent or not empty), [list_items] returns the list
    that holds exactly the stored items passing the [is_done] equality
    filter and the case-insensitive substring filter, newest first with
    ties in insertion order, after dropping [skip] of them and keeping at
    most [limit]. *)
Theorem list_items_refines_spec (items_store : items_store_t)
    (limit skip : Z) (is_done : option bool) (search : option string)
    (sorted : list ItemResponse.t) :
  1 <= limit <= 100 -> 0 <= skip -> search <> Some "" ->
  (search <> None -> texts_are_str items_store = true) ->
  Permutation sorted
    (filter (spec_passes is_done search) (dict_values items_store)) ->
  newest_first sorted ->
  ties_in_order_of
    (filter (spec_passes is_done search) (dict_values items_store)) sorted ->
  list_items items_store limit skip is_done search
  = Ok (firstn (Z.to_nat limit) (skipn (Z.to_nat skip) sorted)).
Proof.
  intros Hlimit Hskip Hsearch Htext _ Hsorted Hties.
  rewrite list_items_pipeline by (assumption || lia).
  do 3 f_equal. symmetry.
  eapply newest_first_unique;
    [exact Hsorted | apply sort_reverse_newest_first
    | exact Hties | apply sort_reverse_ties].
Qed.

(** Such a list exists for every store and every filter. *)
Lemma spec_sorted_exists (items_store : items_store_t)
    (is_done : option bool) (search : option string) :
  exists sorted,
    Permutation sorted
      (filter (spec_passes is_done search) (dict_values items_store))
    /\ newest_first sorted
    /\ ties_in_order_of
         (filter (spec_passes is_done search) (dict_values items_store))
         sorted.
Proof.
  eexists; split; [apply sort_reverse_perm|].
  split; [apply sort_reverse_newest_first | apply sort_reverse_ties].
Qed.

(** C4 (amended).  Items created in the order A, B, C at strictly
    increasing clock readings are listed as [C; B; A] by an unfiltered
    List with [skip = 0] and a [limit] that covers them; and in every
    store, the items that share a [created_at] are listed in their
    insertion order. *)
Theorem list_order_newest_first_then_insertion
    (idA idB idC : UUID) (tA tB tC : datetime) (a b c : ItemCreate.t)
    (items_store : items_store_t) (limit : Z) :
  idA <> idB -> idA <> idC -> idB <> idC ->
  tA < tB -> tB < tC ->
  3 <= limit -> dict_len items_store <= limit ->
  (let '(registry, (item_a, item_b, item_c)) :=
     created_in_order idA idB idC tA tB tC a b c in
   list_items registry limit 0 None None = Ok [item_c; item_b; item_a])
  /\
  (exists listed,
      list_items items_store limit 0 None None = Ok listed
      /\ ties_in_order_of (dict_values items_store) listed).
Proof.
  intros Hab Hac Hbc Htab Htbc Hlimit Hlen. split.
  - unfold created_in_order, create_item; simpl.
    apply N.eqb_neq in Hab, Hac, Hbc.
    rewrite (N.eqb_sym idB idA), Hab; simpl.
    rewrite (N.eqb_sym idC idA), Hac, (N.eqb_sym idC idB), Hbc.
    rewrite list_items_pipeline; try lia; try discriminate.
    + assert (Ebc : (tB <? tC) = true) by (apply Z.ltb_lt; lia).
      assert (Eac : (tA <? tC) = true) by (apply Z.ltb_lt; lia).
      assert (Eab : (tA <? tB) = true) by (apply Z.ltb_lt; lia).
      simpl. rewrite Ebc. simpl. rewrite Eac. simpl. rewrite Eab.
      rewrite firstn_all2 by (simpl; lia). reflexivity.
    + intros Hn; now contradiction Hn.
  - eexists; split.
    + rewrite list_items_pipeline; try lia; try discriminate.
      * simpl. rewrite firstn_all2; [reflexivity|].
        rewrite sort_reverse_length.
        etransitivity; [apply filter_length_le|].
        unfold dict_len, dict_values in *. rewrite length_map. lia.
      * intros Hn; now contradiction Hn.
    + intros t. unfold created_at_eq. rewrite sort_reverse_keyed.
      f_equal. clear. induction (dict_values items_store) as [|x l IH];
        simpl; [reflexivity | now rewrite IH].
Qed.

(** C9 (amended).  In every store and for all arguments, a List with
    [is_done=true] that returns holds only items whose [is_done] is true.
    On a store whose texts are strings (needed only when a search term is
    given) and for valid arguments, the Lists with [is_done=true], with
    [is_done=false] and without an [is_done] filter all return; and when
    nothing is paginated away ([skip = 0] and [limit] at least the number
    of items matching [search]) and every stored [is_done] is a boolean,
    an item is in the [is_done=true] or the [is_done=false] result
    exactly when it is in the result without an [is_done] filter. *)
Theorem list_is_done_partition (items_store : items_store_t)
    (limit skip : Z) (search : option string) :
  (forall done,
      list_items items_store limit skip (Some true) search = Ok done ->
      forall item, In item done -> ItemResponse.is_done item = Some true)
  /\ (1 <= limit -> 0 <= skip -> search <> Some "" ->
      (search <> None -> texts_are_str items_store = true) ->
      exists done pending everything,
        list_items items_store limit skip (Some true) search = Ok done
        /\ list_items items_store limit skip (Some false) search = Ok pending
        /\ list_items items_store limit skip None search = Ok everything
        /\ (skip = 0 ->
            Z.of_nat (List.length (filter (spec_search_filter search)
                                     (dict_values items_store))) <= limit ->
            flags_are_bool items_store = true ->
            forall item,
              In item done \/ In item pending <-> In item everything)).
Proof.
  split.
  - intros done Hlist item Hin. unfold list_items in Hlist.
    match type of Hlist with
    | bind ?searched _ = _ =>
        destruct searched as [found|e] eqn:Hfound;
          cbn [bind] in Hlist; [|discriminate]
    end.
    injection Hlist as <-.
    apply In_py_slice, In_sort_reverse in Hin.
    assert (Hkept :
              In item
                (filter (fun item => py_eq_bool (ItemResponse.is_done item) true)
                   (dict_values items_store))).
    { destruct search as [[|c q]|].
      - injection Hfound as <-. exact Hin.
      - exact (filter_raising_incl _ _ _ Hfound item Hin).
      - injection Hfound as <-. exact Hin. }
    apply filter_In in Hkept as [_ Hdone]. unfold py_eq_bool in Hdone.
    destruct (ItemResponse.is_done item) as [[|]|];
      (reflexivity || discriminate).
  - intros Hlimit Hskip Hsearch Htext.
    do 3 eexists.
    repeat (split; [apply list_items_pipeline; (assumption || lia)|]).
    intros -> Hcount Hflags item. simpl.
    assert (Hall : forall is_done,
               firstn (Z.to_nat limit)
                 (sort_reverse ItemResponse.created_at
                    (filter (spec_passes is_done search)
                       (dict_values items_store)))
               = sort_reverse ItemResponse.created_at
                   (filter (spec_passes is_done search)
                      (dict_values items_store))).
    { intros is_done. apply firstn_all2. rewrite sort_reverse_length.
      pose proof (filter_andb_length (spec_is_done_filter is_done)
                    (spec_search_filter search) (dict_values items_store)).
      unfold spec_passes. lia. }
    rewrite !Hall, !In_sort_reverse, !filter_In.
    unfold spec_passes, spec_is_done_filter; simpl.
    split.
    + intros [[Hin Hp]|[Hin Hp]]; (split; [exact Hin|]);
        apply andb_prop in Hp as [_ Hp]; exact Hp.
    + intros [Hin Hp].
      destruct (flags_are_bool_In _ _ Hflags Hin) as [d Hd].
      rewrite Hd, Hp. destruct d; simpl; [left | right]; now split.
Qed.

End ListClaims.

(** The pipeline theorem at work: page 2 of size 2 of a search over three
    items. *)
Lemma list_items_refines_spec_witness :
  @list_items example_runtime store_ABC 2 1 None (Some "ITEM")
  = Ok [item_B; item_A].
Proof.
  apply (@list_items_refines_spec example_runtime store_ABC 2 1 None
           (Some "ITEM") [item_C; item_B; item_A]).
  - lia.
  - lia.
  - discriminate.
  - reflexivity.
  - exact (Permutation_rev [item_C; item_B; item_A]).
  - unfold newest_first.
    repeat (apply SSorted_cons || apply SSorted_nil
            || apply Forall_cons || apply Forall_nil);
      unfold item_A, item_B, item_C, example_item; simpl; lia.
  - intros t. unfold created_at_eq.
    change (filter (spec_passes None (Some "ITEM")) (dict_values store_ABC))
      with [item_A; item_B; item_C].
    unfold item_A, item_B, item_C, example_item.
    cbn [filter ItemResponse.created_at].
    destruct (Z.eqb_spec 3 t), (Z.eqb_spec 2 t), (Z.eqb_spec 1 t);
      try reflexivity; lia.
Defined.

Lemma list_order_newest_first_then_insertion_witness :
  @list_items example_runtime store_ABC 10 0 None None
  = Ok [item_C; item_B; item_A]
  /\ exists listed,
       @list_items example_runtime store_five 10 0 None None = Ok listed
       /\ ties_in_order_of (dict_values store_five) listed.
Proof.
  apply (@list_order_newest_first_then_insertion example_runtime
           1%N 2%N 3%N 1 2 3
           (ItemCreate.mk "Item 1" true) (ItemCreate.mk "Item 2" false)
           (ItemCreate.mk "Item 3" true) store_five 10);
    try discriminate; try lia.
Defined.

(** C4 as stated fails: three items created in the order A, B, C within
    one tick of the clock are listed in insertion order, not reversed. *)
Lemma list_order_tie_counterexample :
  created_in_order 1%N 2%N 3%N 7 7 7
    (ItemCreate.mk "Item 1" false) (ItemCreate.mk "Item 2" false)
    (ItemCreate.mk "Item 3" false)
  = (store_tie, (tie_A, tie_B, tie_C))
  /\ @list_items example_runtime store_tie 10 0 None None
     = Ok [tie_A; tie_B; tie_C]
  /\ [tie_A; tie_B; tie_C] <> [tie_C; tie_B; tie_A].
Proof.
  split; [reflexivity|]. split; [reflexivity|]. discriminate.
Qed.

Lemma list_is_done_partition_witness :
  exists done pending everything,
    @list_items example_runtime store_ABC 10 0 (Some true) None = Ok done
    /\ @list_items example_runtime store_ABC 10 0 (Some false) None
       = Ok pending
    /\ @list_items example_runtime store_ABC 10 0 None None = Ok everything
    /\ (0 = 0 ->
        Z.of_nat (List.length (filter (@spec_search_filter example_runtime None)
                                 (dict_values store_ABC))) <= 10 ->
        flags_are_bool store_ABC = true ->
        forall item, In item done \/ In item pending <-> In item everything).
Proof.
  apply (proj2 (@list_is_done_partition example_runtime store_ABC 10 0 None)).
  - lia.
  - lia.
  - discriminate.
  - reflexivity.
Defined.

(** C9 as stated fails: with [limit = 1] the pending item B is in the
    [is_done=false] page but not in the page without an [is_done] filter. *)
Lemma list_is_done_union_counterexample :
  @list_items example_runtime store_ABC 1 0 (Some true) None = Ok [item_C]
  /\ @list_items example_runtime store_ABC 1 0 (Some false) None
     = Ok [item_B]
  /\ @list_items example_runtime store_ABC 1 0 None None = Ok [item_C]
  /\ In item_B [item_B]
  /\ ~ In item_B [item_C].
Proof.
  repeat (split; [reflexivity|]). split; [now left|].
  intros [E|[]]. discriminate E.
Qed.

(* ===================================================================== *)
(** ** The dict *)
(* ===================================================================== *)

Section DictFacts.

Lemma dict_get_set (d : items_store_t) (k k' : UUID) (v : ItemResponse.t) :
  dict_get (dict_set d k v) k'
  = if N.eqb k' k then Some v else dict_get d k'.
Proof.
  induction d as [|[k0 v0] d IH]; simpl.
  - destruct (N.eqb k' k); reflexivity.
  - destruct (N.eqb_spec k k0) as [->|Hk]; simpl.
    + destruct (N.eqb k' k0); reflexivity.
    + rewrite IH. destruct (N.eqb_spec k' k0) as [->|Hk'].
      * destruct (N.eqb_spec k0 k) as [E|_]; [now subst | reflexivity].
      * reflexivity.
Qed.

Lemma dict_get_In (d : items_store_t) (k : UUID) (v : ItemResponse.t) :
  dict_get d k = Some v -> In (k, v) d.
Proof.
  induction d as [|[k0 v0] d IH]; simpl; [discriminate|].
  destruct (N.eqb_spec k k0) as [->|_].
  - intros [= ->]; now left.
  - intros Hget; right; now apply IH.
Qed.

Lemma dict_get_None_keys (d : items_store_t) (k : UUID) :
  dict_get d k = None -> ~ In k (map fst d).
Proof.
  induction d as [|[k0 v0] d IH]; simpl; [tauto|].
  destruct (N.eqb_spec k k0) as [->|Hk]; [discriminate|].
  intros Hget [E|Hin]; [now subst | now apply IH].
Qed.

Lemma dict_keys_get_None (d : items_store_t) (k : UUID) :
  ~ In k (map fst d) -> dict_get d k = None.
Proof.
  induction d as [|[k0 v0] d IH]; simpl; [reflexivity|].
  intros Hn. destruct (N.eqb_spec k k0) as [->|_]; [tauto|].
  apply IH; tauto.
Qed.

(** Assignment to a key that is present changes no key and no position. *)
Lemma dict_set_keys_present (d : items_store_t) (k : UUID)
    (v v' : ItemResponse.t) :
  dict_get d k = Some v -> map fst (dict_set d k v') = map fst d.
Proof.
  induction d as [|[k0 v0] d IH]; simpl; [discriminate|].
  destruct (N.eqb_spec k k0) as [->|_]; simpl; [reflexivity|].
  intros Hget; now rewrite IH.
Qed.

(** Assignment to a new key puts the binding last. *)
Lemma dict_set_fresh (d : items_store_t) (k : UUID) (v : ItemResponse.t) :
  dict_get d k = None -> dict_set d k v = (d ++ [(k, v)])%list.
Proof.
  induction d as [|[k0 v0] d IH]; simpl; [reflexivity|].
  destruct (N.eqb_spec k k0) as [->|_]; [discriminate|].
  intros Hget; now rewrite IH.
Qed.

Lemma dict_set_wf (d : items_store_t) (k : UUID) (v : ItemResponse.t) :
  dict_wf d -> dict_wf (dict_set d k v).
Proof.
  unfold dict_wf. intros Hwf.
  destruct (dict_get d k) as [v0|] eqn:Hget.
  - now rewrite (dict_set_keys_present d k v0 v Hget).
  - rewrite dict_set_fresh, map_app by exact Hget. simpl.
    apply NoDup_app; [exact Hwf | repeat constructor; tauto |].
    intros k' Hin [E|[]]; subst k'.
    now apply (dict_get_None_keys d k Hget).
Qed.

Lemma dict_set_Forall (P : UUID * ItemResponse.t -> Prop)
    (d : items_store_t) (k : UUID) (v : ItemResponse.t) :
  Forall P d -> (forall k0, P (k0, v)) -> Forall P (dict_set d k v).
Proof.
  intros Hall Hv. induction Hall as [|[k0 v0] d Hp Hall IH]; simpl.
  - constructor; [apply Hv | constructor].
  - destruct (N.eqb k k0); constructor; auto.
Qed.

Lemma dict_remove_keys_incl (d : items_store_t) (k k' : UUID) :
  In k' (map fst (dict_remove d k)) -> In k' (map fst d).
Proof.
  induction d as [|[k0 v0] d IH]; simpl; [tauto|].
  destruct (N.eqb k k0); simpl; [tauto|].
  intros [E|Hin]; [now left | right; now apply IH].
Qed.

Lemma dict_remove_wf (d : items_store_t) (k : UUID) :
  dict_wf d -> dict_wf (dict_remove d k).
Proof.
  unfold dict_wf. induction d as [|[k0 v0] d IH]; simpl; [trivial|].
  intros Hwf. inversion Hwf as [|? ? Hnotin Hwf']; subst.
  destruct (N.eqb k k0); simpl; [exact Hwf'|].
  constructor; [|now apply IH].
  intros Hin; apply Hnotin. now apply dict_remove_keys_incl in Hin.
Qed.

Lemma dict_remove_Forall (P : UUID * ItemResponse.t -> Prop)
    (d : items_store_t) (k : UUID) :
  Forall P d -> Forall P (dict_remove d k).
Proof.
  intros Hall. induction Hall as [|[k0 v0] d Hp Hall IH]; simpl.
  - constructor.
  - destruct (N.eqb k k0); [exact Hall | now constructor].
Qed.

(** After [del d[k]] the key is gone and every other key reads as before. *)
Lemma dict_get_remove (d : items_store_t) (k k' : UUID) :
  dict_wf d ->
  dict_get (dict_remove d k) k'
  = if N.eqb k' k then None else dict_get d k'.
Proof.
  unfold dict_wf. induction d as [|[k0 v0] d IH]; simpl.
  - now destruct (N.eqb k' k).
  - intros Hwf. apply NoDup_cons_iff in Hwf as [Hnotin Hwf'].
    destruct (N.eqb_spec k k0) as [Ek|Hk]; simpl.
    + subst k0. destruct (N.eqb_spec k' k) as [Ek'|_]; [|reflexivity].
      subst k'. now apply dict_keys_get_None.
    + rewrite IH by exact Hwf'.
      destruct (N.eqb_spec k' k0) as [Ek'|_]; [|reflexivity].
      subst k'. destruct (N.eqb_spec k0 k) as [E|_]; [|reflexivity].
      now contradiction Hk.
Qed.

Lemma dict_contains_get (d : items_store_t) (k : UUID) (v : ItemResponse.t) :
  dict_get d k = Some v -> dict_contains d k = true.
Proof. unfold dict_contains; now intros ->. Qed.

Lemma py_sum_ones {A : Type} (l : list A) :
  py_sum (map (fun _ => 1) l) = Z.of_nat (List.length l).
Proof.
  unfold py_sum.
  enough (G : forall acc, fold_left Z.add (map (fun _ : A => 1) l) acc
                          = acc + Z.of_nat (List.length l))
    by (rewrite G; lia).
  induction l as [|x l IH]; intros acc; simpl List.length; simpl map;
    simpl fold_left; [lia|].
  rewrite IH. lia.
Qed.

(** [setattr] on [text] or [is_done] leaves the other attributes alone. *)
Lemma setattr_fold_frame (update_data : list attr_value)
    (item : ItemResponse.t) :
  ItemResponse.id (fold_left setattr update_data item) = ItemResponse.id item
  /\ ItemResponse.created_at (fold_left setattr update_data item)
     = ItemResponse.created_at item
  /\ ItemResponse.updated_at (fold_left setattr update_data item)
     = ItemResponse.updated_at item.
Proof.
  revert item; induction update_data as [|a l IH]; intros item; simpl.
  - auto.
  - destruct (IH (setattr item a)) as (-> & -> & ->).
    destruct a; simpl; auto.
Qed.

End DictFacts.

(* ===================================================================== *)
(** ** Stats *)
(* ===================================================================== *)

Lemma count_done_filter (l : list ItemResponse.t) :
  Z.of_nat (List.length
              (filter (fun item => bool_truthy (ItemResponse.is_done item)) l))
  = count_done l.
Proof.
  induction l as [|item l IH]; [reflexivity|].
  cbn [filter count_done]. unfold bool_truthy at 1.
  destruct (ItemResponse.is_done item) as [[|]|]; cbn [List.length]; lia.
Qed.

(** C5.  [get_items_stats] returns the number of stored items as the
    total, the number of them whose [is_done] is true as completed, their
    difference as pending, and as rate [round(completed / total * 100, 2)]
    when the total is positive and the integer 0 when the store is empty;
    five items with two done give 5, 2, 3 and 40.0. *)
Theorem get_items_stats_spec (items_store : items_store_t) :
  let st := get_items_stats items_store in
  let total := Z.of_nat (List.length items_store) in
  let completed := count_done (dict_values items_store) in
  Stats.total_items st = total
  /\ Stats.completed_items st = completed
  /\ Stats.pending_items st = total - completed
  /\ Stats.completion_rate st
     = (if 0 <? total
        then PyFloat (py_round
                        (PrimFloat.mul (int_truediv completed total)
                           (float_of_int 100)) 2)
        else PyInt 0)
  /\ (total = 0 -> Stats.completion_rate st = PyInt 0)
  /\ (total = 5 -> completed = 2 -> st = Stats.mk 5 2 3 (PyFloat 40)).
Proof.
  cbv zeta. unfold get_items_stats, dict_len.
  rewrite py_sum_ones, count_done_filter. cbn [Stats.total_items
    Stats.completed_items Stats.pending_items Stats.completion_rate].
  repeat (split; [reflexivity|]). split.
  - intros ->. reflexivity.
  - intros -> ->. reflexivity.
Qed.

Lemma get_items_stats_spec_witness :
  get_items_stats store_five = Stats.mk 5 2 3 (PyFloat 40).
Proof.
  destruct (get_items_stats_spec store_five) as (_ & _ & _ & _ & _ & Hfive).
  exact (Hfive eq_refl eq_refl).
Defined.

(* ===================================================================== *)
(** ** Create, update and the error responses *)
(* ===================================================================== *)

Section RouteClaims.
Context `{PyRuntime}.

Lemma get_item_by_id_found (items_store : items_store_t) (item_id : UUID)
    (item : ItemResponse.t) :
  dict_get items_store item_id = Some item ->
  get_item_by_id items_store item_id = Ok item.
Proof.
  intros Hget. unfold get_item_by_id.
  now rewrite (dict_contains_get _ _ _ Hget), Hget.
Qed.

Lemma get_item_by_id_missing (items_store : items_store_t) (item_id : UUID) :
  dict_get items_store item_id = None ->
  get_item_by_id items_store item_id
  = Raise (HTTPException HTTP_404_NOT_FOUND
             ("Item with id " ++ uuid_str item_id ++ " not found")).
Proof.
  intros Hget. unfold get_item_by_id, dict_contains. now rewrite Hget.
Qed.


Lemma validate_text_ok (t : string) :
  1 <= str_len t <= 500 -> validate_text t = [].
Proof.
  intros [Hlo Hhi]. unfold validate_text.
  destruct (Z.ltb_spec (str_len t) 1); [lia|].
  destruct (Z.ltb_spec 500 (str_len t)); [lia | reflexivity].
Qed.

Lemma validate_text_rejects (t : string) :
  str_len t < 1 \/ 500 < str_len t ->
  exists e, validate_text t = [e].
Proof.
  intros Hbad. unfold validate_text.
  destruct (Z.ltb_spec (str_len t) 1); [eauto|].
  destruct (Z.ltb_spec 500 (str_len t)); [eauto | lia].
Qed.

(** What [update_item] does with a validated body that supplies a field. *)
Lemma update_item_applies (items_store : items_store_t) (item_id : UUID)
    (now : datetime) (body : ItemUpdateBody.t) (item : ItemResponse.t) :
  update_body_nonempty body -> update_body_valid body ->
  exists item_update,
    ItemUpdate_validate body = Ok item_update
    /\ update_item items_store item_id now item_update item
       = (dict_set items_store item_id (updated_item item body now),
          updated_item item body now).
Proof.
  intros Hne Hvalid. unfold ItemUpdate_validate.
  destruct body as [[[t|]|] [d|]]; unfold update_body_valid in Hvalid;
    cbn [ItemUpdateBody.text ItemUpdateBody.is_done] in *;
    try rewrite (validate_text_ok t Hvalid);
    try (destruct Hne as [Hne|Hne]; now contradiction Hne);
    eexists; (split; [reflexivity|]); reflexivity.
Qed.

(** C1.  An update of a stored item whose body supplies at least one of
    [text] and [is_done] (and passes validation) stores and returns the
    item with each supplied field at its supplied value, every other
    field as it was, and [updated_at] at the current time; the answer is
    200 with that item, and the store reads the item back. *)
Theorem update_applies_supplied_fields (items_store : items_store_t)
    (env : Env.t) (item_id : UUID) (item : ItemResponse.t)
    (body : ItemUpdateBody.t) :
  dict_get items_store item_id = Some item ->
  update_body_nonempty body -> update_body_valid body ->
  let item' := updated_item item body (Env.now env) in
  app items_store env (PUT_item item_id body)
  = (dict_set items_store item_id item',
     Response.mk 200 (JSONContent (encode_item item')))
  /\ dict_get (dict_set items_store item_id item') item_id = Some item'
  /\ map fst (dict_set items_store item_id item') = map fst items_store
  /\ forall other, other <> item_id ->
       dict_get (dict_set items_store item_id item') other
       = dict_get items_store other.
Proof.
  intros Hget Hne Hvalid item'. split; [|split; [|split]].
  - unfold app, route. rewrite (get_item_by_id_found _ _ _ Hget).
    destruct (update_item_applies items_store item_id (Env.now env)
                body item Hne Hvalid) as (item_update & Hval & Hupd).
    cbn [bind]. rewrite Hval. cbn [bind]. rewrite Hupd. reflexivity.
  - rewrite dict_get_set. now rewrite N.eqb_refl.
  - eapply dict_set_keys_present; exact Hget.
  - intros other Hother. rewrite dict_get_set.
    apply N.eqb_neq in Hother. now rewrite Hother.
Qed.

(** C2.  An update of a stored item whose body supplies a text that is
    empty or longer than 500 characters is answered 422, and the store,
    the addressed item included, is exactly as before. *)
Theorem update_invalid_text_rejected (items_store : items_store_t)
    (env : Env.t) (item_id : UUID) (item : ItemResponse.t)
    (body : ItemUpdateBody.t) (t : string) :
  dict_get items_store item_id = Some item ->
  ItemUpdateBody.text body = Some (Some t) ->
  str_len t < 1 \/ 500 < str_len t ->
  fst (app items_store env (PUT_item item_id body)) = items_store
  /\ Response.status_code (snd (app items_store env (PUT_item item_id body)))
     = HTTP_422_UNPROCESSABLE_ENTITY
  /\ dict_get (fst (app items_store env (PUT_item item_id body))) item_id
     = Some item.
Proof.
  intros Hget Htext Hbad.
  assert (Happ : exists e,
             app items_store env (PUT_item item_id body)
             = (items_store,
                request_validation_exception_handler [e])).
  { unfold app, route. rewrite (get_item_by_id_found _ _ _ Hget).
    cbn [bind]. unfold ItemUpdate_validate. rewrite Htext.
    destruct (validate_text_rejects t Hbad) as [e ->].
    exists e. reflexivity. }
  destruct Happ as [e ->]. cbn [fst snd]. auto.
Qed.

(** C10.  An update of a stored item whose body supplies no field is
    answered 200 with the stored item, and the store is exactly as
    before; [updated_at] in particular keeps its value. *)
Theorem update_without_fields_changes_nothing (items_store : items_store_t)
    (env : Env.t) (item_id : UUID) (item : ItemResponse.t) :
  dict_get items_store item_id = Some item ->
  app items_store env (PUT_item item_id (ItemUpdateBody.mk None None))
  = (items_store, Response.mk 200 (JSONContent (encode_item item)))
  /\ dict_get
       (fst (app items_store env
               (PUT_item item_id (ItemUpdateBody.mk None None)))) item_id
     = Some item.
Proof.
  intros Hget.
  assert (Happ :
           app items_store env (PUT_item item_id (ItemUpdateBody.mk None None))
           = (items_store, Response.mk 200 (JSONContent (encode_item item)))).
  { unfold app, route. rewrite (get_item_by_id_found _ _ _ Hget).
    reflexivity. }
  rewrite Happ. auto.
Qed.

(** C7.  Create with the empty text is answered 422 and stores nothing;
    with a text of exactly 500 characters it is answered 201 and the new
    item is stored; with 501 characters it is answered 422 and stores
    nothing. *)
Theorem create_text_length_bounds (items_store : items_store_t)
    (env : Env.t) (is_done : option bool) (text500 text501 : string) :
  String.length text500 = 500%nat ->
  String.length text501 = 501%nat ->
  let create text :=
    app items_store env (POST_items (ItemCreateBody.mk text is_done)) in
  let new_item :=
    ItemResponse.mk (Some text500)
      (Some (match is_done with Some d => d | None => false end))
      (Env.uuid4 env) (Env.now env) None in
  (fst (create "") = items_store
   /\ Response.status_code (snd (create ""))
      = HTTP_422_UNPROCESSABLE_ENTITY)
  /\ (create text500
      = (dict_set items_store (Env.uuid4 env) new_item,
         Response.mk HTTP_201_CREATED (JSONContent (encode_item new_item)))
      /\ dict_get (fst (create text500)) (Env.uuid4 env) = Some new_item)
  /\ (fst (create text501) = items_store
      /\ Response.status_code (snd (create text501))
         = HTTP_422_UNPROCESSABLE_ENTITY).
Proof.
  intros H500 H501 create new_item.
  assert (Hok : create text500
                = (dict_set items_store (Env.uuid4 env) new_item,
                   Response.mk HTTP_201_CREATED
                     (JSONContent (encode_item new_item)))).
  { unfold create, app, route, ItemCreate_validate.
    cbn [ItemCreateBody.text ItemCreateBody.is_done].
    rewrite validate_text_ok by (unfold str_len; lia).
    reflexivity. }
  split; [|split].
  - split; reflexivity.
  - split; [exact Hok|]. rewrite Hok. cbn [fst].
    rewrite dict_get_set. now rewrite N.eqb_refl.
  - assert (Hbad : str_len text501 < 1 \/ 500 < str_len text501)
      by (unfold str_len; lia).
    destruct (validate_text_rejects text501 Hbad) as [e He].
    unfold create, app, route, ItemCreate_validate.
    cbn [ItemCreateBody.text]. rewrite He. split; reflexivity.
Qed.

End RouteClaims.

(* ===================================================================== *)
(** ** Which exceptions the endpoints raise *)
(* ===================================================================== *)

Section Outcomes.
Context `{PyRuntime}.

Lemma get_item_by_id_cases (items_store : items_store_t) (item_id : UUID) :
  (exists item, dict_get items_store item_id = Some item
                /\ get_item_by_id items_store item_id = Ok item)
  \/ (dict_get items_store item_id = None
      /\ get_item_by_id items_store item_id
         = Raise (HTTPException HTTP_404_NOT_FOUND
                    ("Item with id " ++ uuid_str item_id ++ " not found"))).
Proof.
  destruct (dict_get items_store item_id) as [item|] eqn:Hget.
  - left; exists item; split; [reflexivity|].
    now apply get_item_by_id_found.
  - right; split; [reflexivity|]. now apply get_item_by_id_missing.
Qed.

Lemma ItemCreate_validate_cases (body : ItemCreateBody.t) :
  (exists item, ItemCreate_validate body = Ok item)
  \/ (exists errors,
         ItemCreate_validate body = Raise (RequestValidationError errors)).
Proof.
  unfold ItemCreate_validate.
  destruct (validate_text (ItemCreateBody.text body)); eauto.
Qed.

Lemma ItemUpdate_validate_cases (body : ItemUpdateBody.t) :
  (exists item_update, ItemUpdate_validate body = Ok item_update)
  \/ (exists errors,
         ItemUpdate_validate body = Raise (RequestValidationError errors)).
Proof.
  unfold ItemUpdate_validate.
  destruct (match ItemUpdateBody.text body with
            | Some (Some t) => validate_text t
            | _ => []
            end); eauto.
Qed.

Lemma filter_raising_text_matches_cases (q : string)
    (l : list ItemResponse.t) :
  (exists r, filter_raising (text_matches q) l = Ok r)
  \/ filter_raising (text_matches q) l = Raise AttributeError.
Proof.
  induction l as [|item l IH]; simpl; [eauto|].
  assert (Hm : (exists b, text_matches q item = Ok b)
               \/ text_matches q item = Raise AttributeError)
    by (unfold text_matches; destruct (ItemResponse.text item); eauto).
  destruct Hm as [[b ->]| ->]; simpl; [|now right].
  destruct IH as [[r ->]| ->]; simpl; eauto.
Qed.

Lemma list_items_cases (items_store : items_store_t) (limit skip : Z)
    (is_done : option bool) (search : option string) :
  (exists items,
      list_items items_store limit skip is_done search = Ok items)
  \/ list_items items_store limit skip is_done search = Raise AttributeError.
Proof.
  unfold list_items.
  destruct search as [[|c q]|]; simpl; eauto.
  match goal with
  | |- context [filter_raising (text_matches ?q) ?l] =>
      destruct (filter_raising_text_matches_cases q l) as [[r ->]| ->]
  end; simpl; eauto.
Qed.

Lemma delete_item_cases (items_store : items_store_t)
    (item : ItemResponse.t) :
  delete_item items_store item
  = Ok (dict_remove items_store (ItemResponse.id item))
  \/ delete_item items_store item = Raise KeyError.
Proof.
  unfold delete_item, dict_del.
  destruct (dict_contains items_store (ItemResponse.id item)); auto.
Qed.

Lemma update_item_cases (items_store : items_store_t) (item_id : UUID)
    (now : datetime) (item_update : ItemUpdate.t) (item : ItemResponse.t) :
  update_item items_store item_id now item_update item = (items_store, item)
  \/ exists update_data,
       update_item items_store item_id now item_update item
       = (dict_set items_store item_id
            (set_updated_at (fold_left setattr update_data item) now),
          set_updated_at (fold_left setattr update_data item) now).
Proof.
  unfold update_item.
  destruct (model_dump_exclude_unset item_update) as [|a l]; eauto.
Qed.

End Outcomes.

Section ErrorAndInvariantClaims.
Context `{PyRuntime}.

Ltac status_codes :=
  unfold HTTP_201_CREATED, HTTP_204_NO_CONTENT, HTTP_404_NOT_FOUND,
    HTTP_422_UNPROCESSABLE_ENTITY in *.

Ltac by_status :=
  cbn; status_codes; split; intros Hstatus;
  try discriminate Hstatus; eexists; reflexivity.

(** C6 (amended).  A response with status 404 comes from the
    [HTTPException] handler and has the body [{detail: string,
    status_code: 404, timestamp: ISO-8601 string}], the timestamp being
    the clock reading of the failing request; a response with status 422
    comes from the framework's validation handler and its body is
    [{detail: [errors]}], without [status_code] and [timestamp]. *)
Theorem error_response_bodies (items_store : items_store_t) (env : Env.t)
    (req : request) :
  let response := snd (app items_store env req) in
  (Response.status_code response = HTTP_404_NOT_FOUND ->
   exists detail,
     Response.body response
     = error_body detail HTTP_404_NOT_FOUND (Env.now env))
  /\ (Response.status_code response = HTTP_422_UNPROCESSABLE_ENTITY ->
      exists errors,
        Response.body response
        = JSONContent (JObj [("detail", JArr errors)])).
Proof.
  cbv zeta. unfold app, route. destruct req as
    [body | limit skip is_done search | | item_id | item_id body | item_id].
  - destruct (ItemCreate_validate_cases body) as [[item ->]|[errors ->]];
      by_status.
  - destruct (validate_list_query (default 10 limit) (default 0 skip) search)
      as [|e errors]; [|by_status].
    destruct (list_items_cases items_store (default 10 limit)
                (default 0 skip) is_done search) as [[items ->]| ->];
      by_status.
  - by_status.
  - destruct (get_item_by_id_cases items_store item_id)
      as [(item & _ & ->)|[_ ->]]; by_status.
  - destruct (get_item_by_id_cases items_store item_id)
      as [(item & _ & ->)|[_ ->]]; [|by_status].
    destruct (ItemUpdate_validate_cases body)
      as [[item_update ->]|[errors ->]]; [|by_status].
    cbn [bind].
    destruct (update_item_cases items_store item_id (Env.now env)
                item_update item) as [->|[update_data ->]]; by_status.
  - destruct (get_item_by_id_cases items_store item_id)
      as [(item & _ & ->)|[_ ->]]; [|by_status].
    cbn [bind].
    destruct (delete_item_cases items_store item) as [->| ->]; by_status.
Qed.

(** The [HTTPException] handler always answers in the error shape. *)
Lemma http_exception_handler_shape (now : datetime) (status_code : Z)
    (detail : string) :
  Response.body (http_exception_handler now status_code detail)
  = error_body detail status_code now.
Proof. reflexivity. Qed.

Lemma registry_step_ok_unchanged (now : datetime)
    (items_store : items_store_t) :
  dict_wf items_store -> store_timestamps_ordered items_store ->
  registry_step_ok now items_store items_store.
Proof.
  intros Hwf Hord. split; [exact Hwf|]. split; [exact Hord|]. split.
  - intros k item item' Hget Hget'. congruence.
  - intros k item' Hget Hget'. congruence.
Qed.

(** C8 (amended).  When [uuid4()] draws an identifier that is not stored
    and the clock reading of an update is not before the [created_at] of
    the item it updates ([env_ok]), every registry operation (create, list,
    stats, get, update, delete) keeps the timestamps in order: after it
    every stored [updated_at] is absent or not before its item's
    [created_at], every item that was stored before keeps its
    [created_at], and an item that was not stored before has the clock
    reading of its creation as [created_at] and no [updated_at]. *)
Theorem operations_preserve_timestamps (items_store : items_store_t)
    (env : Env.t) (req : request) :
  dict_wf items_store -> store_timestamps_ordered items_store ->
  env_ok items_store env req ->
  registry_step_ok (Env.now env) items_store
    (fst (app items_store env req)).
Proof.
  intros Hwf Hord Henv.
  pose proof (registry_step_ok_unchanged (Env.now env) items_store Hwf Hord)
    as Hsame.
  unfold app, route. destruct req as
    [body | limit skip is_done search | | item_id | item_id body | item_id].
  - destruct (ItemCreate_validate_cases body) as [[item ->]|[errors ->]];
      [|exact Hsame].
    cbn in *. split; [|split; [|split]].
    + now apply dict_set_wf.
    + apply dict_set_Forall; [exact Hord | intros k0; exact I].
    + intros k item0 item' Hget. rewrite dict_get_set.
      destruct (N.eqb_spec k (Env.uuid4 env)) as [->|_]; congruence.
    + intros k item' Hget. rewrite dict_get_set.
      destruct (N.eqb_spec k (Env.uuid4 env)) as [->|_]; [|congruence].
      intros [= <-]. split; reflexivity.
  - destruct (validate_list_query (default 10 limit) (default 0 skip) search)
      as [|e errors]; [|exact Hsame].
    destruct (list_items_cases items_store (default 10 limit)
                (default 0 skip) is_done search) as [[items ->]| ->];
      exact Hsame.
  - exact Hsame.
  - destruct (get_item_by_id_cases items_store item_id)
      as [(item & _ & ->)|[_ ->]]; exact Hsame.
  - destruct (get_item_by_id_cases items_store item_id)
      as [(item & Hget & ->)|[_ ->]]; [|exact Hsame].
    destruct (ItemUpdate_validate_cases body)
      as [[item_update ->]|[errors ->]]; [|exact Hsame].
    cbn [bind].
    destruct (update_item_cases items_store item_id (Env.now env)
                item_update item) as [->|[update_data ->]]; [exact Hsame|].
    cbn [fst].
    destruct (setattr_fold_frame update_data item) as (_ & Hcreated & _).
    split; [|split; [|split]].
    + now apply dict_set_wf.
    + apply dict_set_Forall; [exact Hord|]. intros k0.
      unfold timestamps_ordered; cbn. rewrite Hcreated.
      now apply Henv.
    + intros k item0 item' Hget0. rewrite dict_get_set.
      destruct (N.eqb_spec k item_id) as [->|_]; [|congruence].
      intros [= <-]. cbn. rewrite Hcreated. congruence.
    + intros k item' Hget0. rewrite dict_get_set.
      destruct (N.eqb_spec k item_id) as [->|_]; congruence.
  - destruct (get_item_by_id_cases items_store item_id)
      as [(item & Hget & ->)|[_ ->]]; [|exact Hsame].
    cbn [bind].
    destruct (delete_item_cases items_store item) as [->| ->];
      [|exact Hsame].
    cbn [fst bind]. split; [|split; [|split]].
    + now apply dict_remove_wf.
    + now apply dict_remove_Forall.
    + intros k item0 item' Hget0. rewrite dict_get_remove by exact Hwf.
      destruct (N.eqb k (ItemResponse.id item)); congruence.
    + intros k item' Hget0. rewrite dict_get_remove by exact Hwf.
      destruct (N.eqb k (ItemResponse.id item)); congruence.
Qed.

End ErrorAndInvariantClaims.

(* ===================================================================== *)
(** ** The theorems at concrete requests *)
(* ===================================================================== *)

(** An update of only [text] on item B of the three-item store. *)
Lemma update_applies_supplied_fields_witness :
  let body := ItemUpdateBody.mk (Some (Some "Updated text")) None in
  let item' := ItemResponse.mk (Some "Updated text") (Some false) 2%N 2 (Some 9) in
  @app example_runtime store_ABC (Env.mk 9 4%N) (PUT_item 2%N body)
  = (dict_set store_ABC 2%N item',
     Response.mk 200 (JSONContent (@encode_item example_runtime item')))
  /\ dict_get (dict_set store_ABC 2%N item') 2%N = Some item'
  /\ map fst (dict_set store_ABC 2%N item') = map fst store_ABC
  /\ forall other, other <> 2%N ->
       dict_get (dict_set store_ABC 2%N item') other
       = dict_get store_ABC other.
Proof.
  apply (@update_applies_supplied_fields example_runtime store_ABC
           (Env.mk 9 4%N) 2%N item_B
           (ItemUpdateBody.mk (Some (Some "Updated text")) None)).
  - reflexivity.
  - left; discriminate.
  - split; vm_compute; discriminate.
Defined.

(** An update of item B with the empty text. *)
Lemma update_invalid_text_rejected_witness :
  let req := PUT_item 2%N (ItemUpdateBody.mk (Some (Some "")) (Some (Some true))) in
  fst (@app example_runtime store_ABC (Env.mk 9 4%N) req) = store_ABC
  /\ Response.status_code (snd (@app example_runtime store_ABC (Env.mk 9 4%N) req))
     = HTTP_422_UNPROCESSABLE_ENTITY
  /\ dict_get (fst (@app example_runtime store_ABC (Env.mk 9 4%N) req)) 2%N
     = Some item_B.
Proof.
  apply (@update_invalid_text_rejected example_runtime store_ABC
           (Env.mk 9 4%N) 2%N item_B
           (ItemUpdateBody.mk (Some (Some "")) (Some (Some true))) "").
  - reflexivity.
  - reflexivity.
  - left; vm_compute; reflexivity.
Defined.

(** An update of item B that supplies nothing. *)
Lemma update_without_fields_changes_nothing_witness :
  @app example_runtime store_ABC (Env.mk 9 4%N)
    (PUT_item 2%N (ItemUpdateBody.mk None None))
  = (store_ABC,
     Response.mk 200 (JSONContent (@encode_item example_runtime item_B)))
  /\ dict_get
       (fst (@app example_runtime store_ABC (Env.mk 9 4%N)
               (PUT_item 2%N (ItemUpdateBody.mk None None)))) 2%N
     = Some item_B.
Proof.
  apply (@update_without_fields_changes_nothing example_runtime store_ABC
           (Env.mk 9 4%N) 2%N item_B).
  reflexivity.
Defined.

(** Creation with 0, 500 and 501 letters x. *)
Lemma create_text_length_bounds_witness :
  let create text :=
    @app example_runtime store_ABC (Env.mk 9 4%N)
      (POST_items (ItemCreateBody.mk text None)) in
  let new_item :=
    ItemResponse.mk (Some (x_times 500)) (Some false) 4%N 9 None in
  (fst (create "") = store_ABC
   /\ Response.status_code (snd (create "")) = HTTP_422_UNPROCESSABLE_ENTITY)
  /\ (create (x_times 500)
      = (dict_set store_ABC 4%N new_item,
         Response.mk HTTP_201_CREATED
           (JSONContent (@encode_item example_runtime new_item)))
      /\ dict_get (fst (create (x_times 500))) 4%N = Some new_item)
  /\ (fst (create (x_times 501)) = store_ABC
      /\ Response.status_code (snd (create (x_times 501)))
         = HTTP_422_UNPROCESSABLE_ENTITY).
Proof.
  apply (@create_text_length_bounds example_runtime store_ABC (Env.mk 9 4%N)
           None (x_times 500) (x_times 501)).
  - reflexivity.
  - reflexivity.
Defined.

(** A request for an identifier that is not stored. *)
Lemma error_response_bodies_witness :
  exists detail,
    Response.body
      (snd (@app example_runtime store_ABC (Env.mk 9 4%N) (GET_item 7%N)))
    = @error_body example_runtime detail HTTP_404_NOT_FOUND 9.
Proof.
  exact (proj1 (@error_response_bodies example_runtime store_ABC
                  (Env.mk 9 4%N) (GET_item 7%N)) eq_refl).
Defined.

(** C6 as stated fails: the answer to a creation with the empty text has
    status 422 and a body that is not of the error shape. *)
Lemma validation_error_body_counterexample :
  let response :=
    snd (@app example_runtime store_ABC (Env.mk 9 4%N)
           (POST_items (ItemCreateBody.mk "" None))) in
  Response.status_code response = HTTP_422_UNPROCESSABLE_ENTITY
  /\ Response.body response
     = JSONContent
         (JObj [("detail",
                 JArr [JObj [("type", JStr "string_too_short");
                             ("loc", JArr [JStr "body"; JStr "text"]);
                             ("msg",
                              JStr "String should have at least 1 character")]])])
  /\ ~ @error_body_shape example_runtime (Response.body response).
Proof.
  cbv zeta. split; [reflexivity|]. split; [reflexivity|].
  intros (detail & status_code & timestamp & E).
  unfold error_body in E. discriminate E.
Qed.

(** An update of item B at a clock reading after its creation. *)
Lemma operations_preserve_timestamps_witness :
  let req := PUT_item 2%N (ItemUpdateBody.mk None (Some (Some true))) in
  registry_step_ok 9 store_ABC
    (fst (@app example_runtime store_ABC (Env.mk 9 4%N) req)).
Proof.
  apply (@operations_preserve_timestamps example_runtime store_ABC
           (Env.mk 9 4%N)
           (PUT_item 2%N (ItemUpdateBody.mk None (Some (Some true))))).
  - unfold dict_wf; simpl.
    repeat (apply NoDup_cons || apply NoDup_nil); simpl;
      intuition discriminate.
  - unfold store_timestamps_ordered, store_ABC.
    repeat (apply Forall_cons || apply Forall_nil); exact I.
  - intros item Hget. injection Hget as <-. simpl. lia.
Defined.

(* ===================================================================== *)
(** ** Round trips, and an update that supplies [null] *)
(* ===================================================================== *)

Section RoundTrips.
Context `{PyRuntime}.

Lemma filter_raising_None_text (q : string) (l : list ItemResponse.t)
    (item : ItemResponse.t) :
  In item l -> ItemResponse.text item = None ->
  filter_raising (text_matches q) l = Raise AttributeError.
Proof.
  intros Hin Hnone. induction l as [|x l IH]; [contradiction|].
  cbn [filter_raising].
  destruct Hin as [->|Hin].
  - unfold text_matches at 1. now rewrite Hnone.
  - assert (Hm : (exists b, text_matches q x = Ok b)
                 \/ text_matches q x = Raise AttributeError)
      by (unfold text_matches; destruct (ItemResponse.text x); eauto).
    destruct Hm as [[b ->]| ->]; [|reflexivity].
    cbn [bind]. now rewrite (IH Hin).
Qed.

Lemma In_dict_values (d : items_store_t) (k : UUID) (v : ItemResponse.t) :
  dict_get d k = Some v -> In v (dict_values d).
Proof.
  intros Hget. apply dict_get_In in Hget.
  unfold dict_values. now apply (in_map snd) in Hget.
Qed.

(** X1.  An update whose body carries [text: null] passes validation and
    is applied like any supplied field: the stored [text] becomes [None] and
    [updated_at] is set.  From then on a List with a search term and no
    [is_done] filter raises on [item.text.lower()]. *)
Theorem update_with_null_text (items_store : items_store_t) (env : Env.t)
    (item_id : UUID) (item : ItemResponse.t) :
  dict_get items_store item_id = Some item ->
  let after :=
    fst (app items_store env
           (PUT_item item_id (ItemUpdateBody.mk (Some None) None))) in
  dict_get after item_id
  = Some (ItemResponse.mk None (ItemResponse.is_done item)
            (ItemResponse.id item) (ItemResponse.created_at item)
            (Some (Env.now env)))
  /\ forall limit skip c q,
       list_items after limit skip None (Some (String c q))
       = Raise AttributeError.
Proof.
  intros Hget after.
  assert (Hafter : dict_get after item_id
                   = Some (ItemResponse.mk None (ItemResponse.is_done item)
                             (ItemResponse.id item)
                             (ItemResponse.created_at item)
                             (Some (Env.now env)))).
  { unfold after, app, route. rewrite (get_item_by_id_found _ _ _ Hget).
    cbn. rewrite dict_get_set. now rewrite N.eqb_refl. }
  split; [exact Hafter|].
  intros limit skip c q. unfold list_items.
  rewrite (filter_raising_None_text _ _ _ (In_dict_values _ _ _ Hafter));
    reflexivity.
Qed.

(** X2.  Create then Get: the item read back under the drawn identifier
    is the created one, field for field, with [updated_at] absent. *)
Theorem create_then_get (items_store : items_store_t) (env env' : Env.t)
    (text : string) (is_done : option bool) :
  1 <= str_len text <= 500 ->
  let new_item :=
    ItemResponse.mk (Some text)
      (Some (match is_done with Some d => d | None => false end))
      (Env.uuid4 env) (Env.now env) None in
  let created :=
    app items_store env (POST_items (ItemCreateBody.mk text is_done)) in
  snd created
  = Response.mk HTTP_201_CREATED (JSONContent (encode_item new_item))
  /\ app (fst created) env' (GET_item (Env.uuid4 env))
     = (fst created, Response.mk 200 (JSONContent (encode_item new_item))).
Proof.
  intros Hlen new_item created.
  assert (Hcreated : created
                     = (dict_set items_store (Env.uuid4 env) new_item,
                        Response.mk HTTP_201_CREATED
                          (JSONContent (encode_item new_item)))).
  { unfold created, app, route, ItemCreate_validate.
    cbn [ItemCreateBody.text ItemCreateBody.is_done].
    now rewrite (validate_text_ok text Hlen). }
  rewrite Hcreated. cbn [fst snd]. split; [reflexivity|].
  unfold app, route.
  rewrite (get_item_by_id_found _ _ new_item); [reflexivity|].
  rewrite dict_get_set. now rewrite N.eqb_refl.
Qed.

(** X3.  Delete removes the item and answers 204 with no body; afterwards Get
    and a second Delete of the same identifier answer 404 and leave the
    store alone. *)
Theorem delete_then_not_found (items_store : items_store_t)
    (env env' : Env.t) (item_id : UUID) (item : ItemResponse.t) :
  dict_wf items_store ->
  dict_get items_store item_id = Some item ->
  ItemResponse.id item = item_id ->
  let deleted := app items_store env (DELETE_item item_id) in
  deleted = (dict_remove items_store item_id,
             Response.mk HTTP_204_NO_CONTENT NoContent)
  /\ dict_get (fst deleted) item_id = None
  /\ (forall other, other <> item_id ->
        dict_get (fst deleted) other = dict_get items_store other)
  /\ app (fst deleted) env' (GET_item item_id)
     = (fst deleted,
        http_exception_handler (Env.now env') HTTP_404_NOT_FOUND
          ("Item with id " ++ uuid_str item_id ++ " not found"))
  /\ app (fst deleted) env' (DELETE_item item_id)
     = (fst deleted,
        http_exception_handler (Env.now env') HTTP_404_NOT_FOUND
          ("Item with id " ++ uuid_str item_id ++ " not found")).
Proof.
  intros Hwf Hget Hid deleted.
  assert (Hdeleted : deleted = (dict_remove items_store item_id,
                                Response.mk HTTP_204_NO_CONTENT NoContent)).
  { unfold deleted, app, route. rewrite (get_item_by_id_found _ _ _ Hget).
    cbn [bind]. unfold delete_item, dict_del. rewrite Hid.
    now rewrite (dict_contains_get _ _ _ Hget). }
  rewrite Hdeleted. cbn [fst].
  assert (Hgone : dict_get (dict_remove items_store item_id) item_id = None)
    by (rewrite dict_get_remove by exact Hwf; now rewrite N.eqb_refl).
  split; [reflexivity|]. split; [exact Hgone|]. split.
  - intros other Hother. rewrite dict_get_remove by exact Hwf.
    apply N.eqb_neq in Hother. now rewrite Hother.
  - unfold app, route. rewrite (get_item_by_id_missing _ _ Hgone).
    split; reflexivity.
Qed.

End RoundTrips.

Lemma update_with_null_text_witness :
  let after :=
    fst (@app example_runtime store_ABC (Env.mk 9 4%N)
           (PUT_item 2%N (ItemUpdateBody.mk (Some None) None))) in
  dict_get after 2%N
  = Some (ItemResponse.mk None (Some false) 2%N 2 (Some 9))
  /\ forall limit skip c q,
       @list_items example_runtime after limit skip None (Some (String c q))
       = Raise AttributeError.
Proof.
  apply (@update_with_null_text example_runtime store_ABC (Env.mk 9 4%N)
           2%N item_B).
  reflexivity.
Defined.

Lemma create_then_get_witness :
  let new_item := ItemResponse.mk (Some "Test item") (Some false) 4%N 9 None in
  let created :=
    @app example_runtime store_ABC (Env.mk 9 4%N)
      (POST_items (ItemCreateBody.mk "Test item" None)) in
  snd created
  = Response.mk HTTP_201_CREATED
      (JSONContent (@encode_item example_runtime new_item))
  /\ @app example_runtime (fst created) (Env.mk 10 5%N) (GET_item 4%N)
     = (fst created,
        Response.mk 200 (JSONContent (@encode_item example_runtime new_item))).
Proof.
  apply (@create_then_get example_runtime store_ABC (Env.mk 9 4%N)
           (Env.mk 10 5%N) "Test item" None).
  split; vm_compute; discriminate.
Defined.

Lemma delete_then_not_found_witness :
  let deleted :=
    @app example_runtime store_ABC (Env.mk 9 4%N) (DELETE_item 2%N) in
  deleted = (dict_remove store_ABC 2%N,
             Response.mk HTTP_204_NO_CONTENT NoContent)
  /\ dict_get (fst deleted) 2%N = None
  /\ (forall other, other <> 2%N ->
        dict_get (fst deleted) other = dict_get store_ABC other)
  /\ @app example_runtime (fst deleted) (Env.mk 10 5%N) (GET_item 2%N)
     = (fst deleted,
        @http_exception_handler example_runtime 10 HTTP_404_NOT_FOUND
          ("Item with id " ++ @uuid_str example_runtime 2%N ++ " not found"))
  /\ @app example_runtime (fst deleted) (Env.mk 10 5%N) (DELETE_item 2%N)
     = (fst deleted,
        @http_exception_handler example_runtime 10 HTTP_404_NOT_FOUND
          ("Item with id " ++ @uuid_str example_runtime 2%N ++ " not found")).
Proof.
  apply (@delete_then_not_found example_runtime store_ABC (Env.mk 9 4%N)
           (Env.mk 10 5%N) 2%N item_B).
  - unfold dict_wf; simpl.
    repeat (apply NoDup_cons || apply NoDup_nil); simpl;
      intuition discriminate.
  - reflexivity.
  - reflexivity.
Defined.

(* ===================================================================== *)
(** ** List: query bounds, pages, and the newest item *)
(* ===================================================================== *)


(** An element newer than all others, appended last, sorts to the front
    and leaves the order of the others alone. *)
Lemma sort_reverse_snoc_newest {A : Type} (key : A -> Z) (x : A)
    (l : list A) :
  (forall y, In y l -> key y < key x) ->
  sort_reverse key (l ++ [x]) = x :: sort_reverse key l.
Proof.
  induction l as [|y l IH]; intros Hnew; [reflexivity|].
  simpl. rewrite IH by (intros z Hz; apply Hnew; now right).
  simpl. assert (Hy : key y < key x) by (apply Hnew; now left).
  apply Z.ltb_lt in Hy. now rewrite Hy.
Qed.

Lemma str_len_lt_1 (q : string) : str_len q < 1 <-> q = "".
Proof.
  unfold str_len. destruct q as [|c q]; simpl String.length.
  - split; [reflexivity | lia].
  - split; [lia | discriminate].
Qed.

Lemma validate_list_query_passes (limit skip : Z) (search : option string) :
  validate_list_query limit skip search = []
  <-> (1 <= limit <= 100 /\ 0 <= skip /\ search <> Some "").
Proof.
  unfold validate_list_query.
  destruct (Z.ltb_spec limit 1) as [Hl1|Hl1].
  { split; [discriminate | lia]. }
  destruct (Z.ltb_spec 100 limit) as [Hl2|Hl2].
  { split; [discriminate | lia]. }
  destruct (Z.ltb_spec skip 0) as [Hs|Hs].
  { split; [discriminate | lia]. }
  destruct search as [q|]; simpl.
  - destruct (Z.ltb_spec (str_len q) 1) as [Hq|Hq].
    + apply str_len_lt_1 in Hq. subst q.
      split; [discriminate | intros (_ & _ & Hne); now contradiction Hne].
    + split; [|reflexivity]. intros _. repeat split; try lia.
      intros [= ->]. unfold str_len in Hq; simpl in Hq; lia.
  - split; [|reflexivity]. intros _. repeat split; try lia. discriminate.
Qed.

Section ListExtras.
Context `{PyRuntime}.

(** X4.  [GET /items] is answered 422 exactly when [limit] (10 when
    absent) is outside 1..100, [skip] (0 when absent) is negative, or
    [search] is the empty string; it never changes the store. *)
Theorem list_query_rejected_iff (items_store : items_store_t) (env : Env.t)
    (limit skip : option Z) (is_done : option bool) (search : option string) :
  let answer := app items_store env (GET_items limit skip is_done search) in
  fst answer = items_store
  /\ (Response.status_code (snd answer) = HTTP_422_UNPROCESSABLE_ENTITY
      <-> (default 10 limit < 1 \/ 100 < default 10 limit
           \/ default 0 skip < 0 \/ search = Some "")).
Proof.
  cbv zeta. unfold app, route.
  pose proof (validate_list_query_passes (default 10 limit) (default 0 skip)
                search) as Hpass.
  destruct (validate_list_query (default 10 limit) (default 0 skip) search)
    as [|e errors].
  - destruct Hpass as [Hpass _].
    destruct (Hpass eq_refl) as (Hlimit & Hskip & Hsearch).
    destruct (list_items_cases items_store (default 10 limit)
                (default 0 skip) is_done search) as [[items ->]| ->];
      cbn; (split; [reflexivity|]);
      (split; [discriminate | intros [?|[?|[?|?]]]; (lia || congruence)]).
  - cbn. split; [reflexivity|]. split; [|reflexivity]. intros _.
    destruct (Z.ltb_spec (default 10 limit) 1); [now left|].
    destruct (Z.ltb_spec 100 (default 10 limit)); [right; now left|].
    destruct (Z.ltb_spec (default 0 skip) 0); [right; right; now left|].
    right; right; right.
    destruct search as [[|c q]|]; [reflexivity | |];
      exfalso; destruct Hpass as [_ Hpass];
      discriminate Hpass; repeat split; (lia || discriminate).
Qed.

(** X5.  A List page holds at most [limit] items, each of them a stored
    item that passes both filters; once [skip] reaches the number of stored
    items the page is empty. *)
Theorem list_page_within_bounds (items_store : items_store_t)
    (limit skip : Z) (is_done : option bool) (search : option string) :
  0 <= limit -> 0 <= skip -> search <> Some "" ->
  (search <> None -> texts_are_str items_store = true) ->
  exists page,
    list_items items_store limit skip is_done search = Ok page
    /\ Z.of_nat (List.length page) <= limit
    /\ (forall item, In item page ->
          In item (dict_values items_store)
          /\ spec_passes is_done search item = true)
    /\ (dict_len items_store <= skip -> page = []).
Proof.
  intros Hlimit Hskip Hsearch Htext.
  eexists. split; [now apply list_items_pipeline|]. split; [|split].
  - pose proof (firstn_le_length (Z.to_nat limit)
                  (skipn (Z.to_nat skip)
                     (sort_reverse ItemResponse.created_at
                        (filter (spec_passes is_done search)
                           (dict_values items_store))))). lia.
  - intros item Hin. apply In_firstn, In_skipn in Hin.
    apply In_sort_reverse in Hin. now apply filter_In in Hin.
  - intros Hlen. rewrite skipn_all2; [now rewrite firstn_nil|].
    rewrite sort_reverse_length.
    etransitivity; [apply filter_length_le|].
    unfold dict_len, dict_values in *. rewrite length_map. lia.
Qed.


(** X7.  An item created with an unused identifier at a clock reading later
    than every stored [created_at] heads the unfiltered List, followed by
    what the List of one item less returned before the creation. *)
Theorem created_item_listed_first (items_store : items_store_t)
    (item_id : UUID) (now : datetime) (item : ItemCreate.t) (limit : Z) :
  dict_get items_store item_id = None ->
  (forall stored, In stored (dict_values items_store) ->
                  ItemResponse.created_at stored < now) ->
  1 <= limit ->
  let (items_store', new_item) := create_item items_store item_id now item in
  exists rest,
    list_items items_store (limit - 1) 0 None None = Ok rest
    /\ list_items items_store' limit 0 None None = Ok (new_item :: rest).
Proof.
  intros Hfresh Hnewest Hlimit. unfold create_item.
  set (new_item := ItemResponse.mk (Some (ItemCreate.text item))
                     (Some (ItemCreate.is_done item)) item_id now None).
  assert (Hall : forall l : list ItemResponse.t,
             filter (spec_passes None None) l = l).
  { induction l as [|x l IH]; simpl; [reflexivity | now rewrite IH]. }
  eexists. split.
  - rewrite list_items_pipeline; try lia; try discriminate;
      [reflexivity | intros Hn; now contradiction Hn].
  - rewrite list_items_pipeline; try lia; try discriminate;
      [|intros Hn; now contradiction Hn].
    rewrite !Hall, dict_set_fresh by exact Hfresh.
    unfold dict_values. rewrite map_app. simpl map at 2.
    rewrite sort_reverse_snoc_newest by exact Hnewest.
    simpl skipn.
    replace (Z.to_nat limit) with (S (Z.to_nat (limit - 1))) by lia.
    reflexivity.
Qed.

End ListExtras.

(* ===================================================================== *)
(** ** What every request keeps, and what the answers can be *)
(* ===================================================================== *)

Lemma dict_set_Forall_key (P : UUID * ItemResponse.t -> Prop)
    (d : items_store_t) (k : UUID) (v : ItemResponse.t) :
  Forall P d -> P (k, v) -> Forall P (dict_set d k v).
Proof.
  intros Hall Hv. induction Hall as [|[k0 v0] d Hp Hall IH]; simpl.
  - constructor; [exact Hv | constructor].
  - destruct (N.eqb_spec k k0) as [E|_].
    + subst k0. now constructor.
    + now constructor.
Qed.

Lemma ids_consistent_get (d : items_store_t) (k : UUID)
    (v : ItemResponse.t) :
  ids_consistent d -> dict_get d k = Some v -> ItemResponse.id v = k.
Proof.
  unfold ids_consistent. rewrite Forall_forall. intros Hall Hget.
  exact (Hall (k, v) (dict_get_In d k v Hget)).
Qed.

Lemma ids_consistent_keys (d : items_store_t) :
  ids_consistent d -> map ItemResponse.id (dict_values d) = map fst d.
Proof.
  unfold dict_values. induction 1 as [|[k v] d Hkv Hall IH]; simpl;
    [reflexivity|].
  simpl in Hkv. now rewrite Hkv, IH.
Qed.

Lemma texts_valid_get (d : items_store_t) (k : UUID) (v : ItemResponse.t) :
  texts_valid d -> dict_get d k = Some v -> text_valid v.
Proof.
  unfold texts_valid. rewrite Forall_forall. intros Hall Hget.
  exact (Hall (k, v) (dict_get_In d k v Hget)).
Qed.

Section StoreExtras.
Context `{PyRuntime}.

(** One request keeps the store a dict whose items sit under their own
    identifiers. *)
Lemma app_keeps_dict (items_store : items_store_t) (env : Env.t)
    (req : request) :
  dict_wf items_store -> ids_consistent items_store ->
  dict_wf (fst (app items_store env req))
  /\ ids_consistent (fst (app items_store env req)).
Proof.
  intros Hwf Hids. unfold app, route. destruct req as
    [body | limit skip is_done search | | item_id | item_id body | item_id].
  - destruct (ItemCreate_validate_cases body) as [[item ->]|[errors ->]];
      [|now split].
    cbn. split; [now apply dict_set_wf|].
    now apply dict_set_Forall_key.
  - destruct (validate_list_query (default 10 limit) (default 0 skip) search)
      as [|e errors]; [|now split].
    destruct (list_items_cases items_store (default 10 limit)
                (default 0 skip) is_done search) as [[items ->]| ->];
      now split.
  - now split.
  - destruct (get_item_by_id_cases items_store item_id)
      as [(item & _ & ->)|[_ ->]]; now split.
  - destruct (get_item_by_id_cases items_store item_id)
      as [(item & Hget & ->)|[_ ->]]; [|now split].
    destruct (ItemUpdate_validate_cases body)
      as [[item_update ->]|[errors ->]]; [|now split].
    cbn [bind].
    destruct (update_item_cases items_store item_id (Env.now env)
                item_update item) as [->|[update_data ->]]; [now split|].
    cbn [fst]. split; [now apply dict_set_wf|].
    apply dict_set_Forall_key; [exact Hids|]. cbn.
    destruct (setattr_fold_frame update_data item) as (-> & _ & _).
    now apply (ids_consistent_get items_store).
  - destruct (get_item_by_id_cases items_store item_id)
      as [(item & _ & ->)|[_ ->]]; [|now split].
    cbn [bind].
    destruct (delete_item_cases items_store item) as [->| ->];
      [|now split].
    cbn [fst]. split; [now apply dict_remove_wf|].
    now apply dict_remove_Forall.
Qed.

(** X8.  Whatever requests arrive, in whatever order and also when
    [uuid4()] repeats itself, a store that holds each key once and each
    item under its own [id] stays so, and so the [id]s of the stored items
    are pairwise distinct. *)
Theorem run_keeps_ids_unique (items_store : items_store_t)
    (trace : list (Env.t * request)) :
  dict_wf items_store -> ids_consistent items_store ->
  dict_wf (run items_store trace)
  /\ ids_consistent (run items_store trace)
  /\ NoDup (map ItemResponse.id (dict_values (run items_store trace))).
Proof.
  revert items_store. induction trace as [|[env req] trace IH];
    intros items_store Hwf Hids; simpl.
  - repeat split; try assumption.
    now rewrite ids_consistent_keys.
  - destruct (app_keeps_dict items_store env req Hwf Hids) as [Hwf' Hids'].
    now apply IH.
Qed.

(** X9.  No request except an update that carries [text: null] can break
    the bounds of [text]: if every stored text is a string of 1 to 500
    characters before, it is so after. *)
Theorem requests_keep_text_bounds (items_store : items_store_t)
    (env : Env.t) (req : request) :
  texts_valid items_store -> ~ supplies_null_text req ->
  texts_valid (fst (app items_store env req)).
Proof.
  intros Hvalid Hnull. unfold app, route. destruct req as
    [body | limit skip is_done search | | item_id | item_id body | item_id].
  - unfold ItemCreate_validate, validate_text.
    destruct (Z.ltb_spec (str_len (ItemCreateBody.text body)) 1);
      [exact Hvalid|].
    destruct (Z.ltb_spec 500 (str_len (ItemCreateBody.text body)));
      [exact Hvalid|].
    cbn. apply dict_set_Forall_key; [exact Hvalid|].
    unfold text_valid; cbn. lia.
  - destruct (validate_list_query (default 10 limit) (default 0 skip) search)
      as [|e errors]; [|exact Hvalid].
    destruct (list_items_cases items_store (default 10 limit)
                (default 0 skip) is_done search) as [[items ->]| ->];
      exact Hvalid.
  - exact Hvalid.
  - destruct (get_item_by_id_cases items_store item_id)
      as [(item & _ & ->)|[_ ->]]; exact Hvalid.
  - destruct (get_item_by_id_cases items_store item_id)
      as [(item & Hget & ->)|[_ ->]]; [|exact Hvalid].
    pose proof (texts_valid_get _ _ _ Hvalid Hget) as Hitem.
    cbn [bind]. unfold ItemUpdate_validate, validate_text.
    destruct body as [[[t|]|] [d|]];
      cbn [ItemUpdateBody.text ItemUpdateBody.is_done] in *;
      try (exfalso; apply Hnull; reflexivity);
      try (destruct (Z.ltb_spec (str_len t) 1); [exact Hvalid|];
           destruct (Z.ltb_spec 500 (str_len t)); [exact Hvalid|]);
      cbn; try exact Hvalid;
      (apply dict_set_Forall_key; [exact Hvalid|]);
      unfold text_valid in *; cbn; (lia || exact Hitem).
  - destruct (get_item_by_id_cases items_store item_id)
      as [(item & _ & ->)|[_ ->]]; [|exact Hvalid].
    cbn [bind].
    destruct (delete_item_cases items_store item) as [->| ->];
      [|exact Hvalid].
    cbn [fst]. now apply dict_remove_Forall.
Qed.

(** X10.  The answers are 200, 201, 204, 404, 422 or 500; an answer that is
    not 200, 201 or 204 leaves the store as it was, and so does every
    [GET]. *)
Theorem failures_and_reads_leave_store (items_store : items_store_t)
    (env : Env.t) (req : request) :
  let answer := app items_store env req in
  In (Response.status_code (snd answer)) [200; 201; 204; 404; 422; 500]
  /\ (In (Response.status_code (snd answer)) [404; 422; 500] ->
      fst answer = items_store)
  /\ (is_read req = true -> fst answer = items_store).
Proof.
  cbv zeta. unfold app, route. destruct req as
    [body | limit skip is_done search | | item_id | item_id body | item_id].
  - destruct (ItemCreate_validate_cases body) as [[item ->]|[errors ->]];
      cbn; (split; [tauto|]); (split; [|discriminate]);
      [intros [?|[?|[?|[]]]]; discriminate | reflexivity].
  - destruct (validate_list_query (default 10 limit) (default 0 skip) search)
      as [|e errors]; [|cbn; tauto].
    destruct (list_items_cases items_store (default 10 limit)
                (default 0 skip) is_done search) as [[items ->]| ->];
      cbn; tauto.
  - cbn; tauto.
  - destruct (get_item_by_id_cases items_store item_id)
      as [(item & _ & ->)|[_ ->]]; cbn; tauto.
  - destruct (get_item_by_id_cases items_store item_id)
      as [(item & _ & ->)|[_ ->]]; [|cbn; split; [tauto|]; split;
                                       [reflexivity | discriminate]].
    destruct (ItemUpdate_validate_cases body)
      as [[item_update ->]|[errors ->]];
      [|cbn; split; [tauto|]; split; [reflexivity | discriminate]].
    cbn [bind].
    destruct (update_item_cases items_store item_id (Env.now env)
                item_update item) as [->|[update_data ->]];
      cbn; (split; [tauto|]); (split; [|discriminate]);
      try reflexivity; intros [?|[?|[?|[]]]]; discriminate.
  - destruct (get_item_by_id_cases items_store item_id)
      as [(item & _ & ->)|[_ ->]]; [|cbn; split; [tauto|]; split;
                                       [reflexivity | discriminate]].
    cbn [bind].
    destruct (delete_item_cases items_store item) as [->| ->];
      cbn; (split; [tauto|]); (split; [|discriminate]);
      try reflexivity; intros [?|[?|[?|[]]]]; discriminate.
Qed.

(** X11.  On a store whose items sit under their own identifiers and whose
    texts are strings, no request is answered 500: the answer is 200, 201,
    204, 404 or 422. *)
Theorem no_internal_server_error (items_store : items_store_t)
    (env : Env.t) (req : request) :
  ids_consistent items_store -> texts_are_str items_store = true ->
  In (Response.status_code (snd (app items_store env req)))
    [200; 201; 204; 404; 422].
Proof.
  intros Hids Htext. unfold app, route. destruct req as
    [body | limit skip is_done search | | item_id | item_id body | item_id].
  - destruct (ItemCreate_validate_cases body) as [[item ->]|[errors ->]];
      cbn; tauto.
  - pose proof (validate_list_query_passes (default 10 limit)
                  (default 0 skip) search) as Hpass.
    destruct (validate_list_query (default 10 limit) (default 0 skip) search)
      as [|e errors]; [|cbn; tauto].
    destruct Hpass as [Hpass _].
    destruct (Hpass eq_refl) as (Hlimit & Hskip & Hsearch).
    rewrite list_items_pipeline by (lia || assumption || (intros _; assumption)).
    cbn; tauto.
  - cbn; tauto.
  - destruct (get_item_by_id_cases items_store item_id)
      as [(item & _ & ->)|[_ ->]]; cbn; tauto.
  - destruct (get_item_by_id_cases items_store item_id)
      as [(item & _ & ->)|[_ ->]]; [|cbn; tauto].
    destruct (ItemUpdate_validate_cases body)
      as [[item_update ->]|[errors ->]]; [|cbn; tauto].
    cbn [bind].
    destruct (update_item_cases items_store item_id (Env.now env)
                item_update item) as [->|[update_data ->]]; cbn; tauto.
  - destruct (get_item_by_id_cases items_store item_id)
      as [(item & Hget & ->)|[_ ->]]; [|cbn; tauto].
    cbn [bind]. unfold delete_item, dict_del.
    rewrite (ids_consistent_get _ _ _ Hids Hget).
    rewrite (dict_contains_get _ _ _ Hget). cbn; tauto.
Qed.

(** X12.  Get, Update and Delete of an identifier that is not stored are
    answered by the [HTTPException] handler with 404 and the detail naming
    the identifier, and leave the store as it was; for Update this holds
    whatever the body is, an invalid one included. *)
Theorem unknown_identifier_not_found (items_store : items_store_t)
    (env : Env.t) (req : request) (item_id : UUID) :
  request_item_id req = Some item_id ->
  dict_get items_store item_id = None ->
  app items_store env req
  = (items_store, not_found_response (Env.now env) item_id).
Proof.
  intros Hreq Hget. unfold app, route.
  destruct req; try discriminate Hreq; injection Hreq as ->;
    now rewrite (get_item_by_id_missing _ _ Hget).
Qed.

End StoreExtras.

(* ===================================================================== *)
(** ** Stats against create and delete; update then get *)
(* ===================================================================== *)

Lemma stats_counts (items_store : items_store_t) :
  Stats.total_items (get_items_stats items_store)
  = Z.of_nat (List.length items_store)
  /\ Stats.completed_items (get_items_stats items_store)
     = count_done (dict_values items_store)
  /\ Stats.pending_items (get_items_stats items_store)
     = Z.of_nat (List.length items_store)
       - count_done (dict_values items_store).
Proof.
  unfold get_items_stats, dict_len. rewrite py_sum_ones, count_done_filter.
  cbn. auto.
Qed.

Lemma count_done_bounds (l : list ItemResponse.t) :
  0 <= count_done l <= Z.of_nat (List.length l).
Proof.
  induction l as [|item l IH]; cbn [count_done List.length]; [lia|].
  destruct (ItemResponse.is_done item) as [[|]|]; lia.
Qed.

Lemma count_done_app (l1 l2 : list ItemResponse.t) :
  count_done (l1 ++ l2) = count_done l1 + count_done l2.
Proof.
  induction l1 as [|item l1 IH]; cbn [Datatypes.app count_done]; [reflexivity|].
  rewrite IH. destruct (ItemResponse.is_done item) as [[|]|]; lia.
Qed.

Lemma dict_remove_counts (d : items_store_t) (k : UUID)
    (v : ItemResponse.t) :
  dict_get d k = Some v ->
  Z.of_nat (List.length (dict_remove d k)) = Z.of_nat (List.length d) - 1
  /\ count_done (dict_values (dict_remove d k))
     = count_done (dict_values d)
       - (if bool_truthy (ItemResponse.is_done v) then 1 else 0).
Proof.
  unfold dict_values.
  induction d as [|[k0 v0] d IH]; [discriminate|].
  cbn [dict_get dict_remove]. destruct (N.eqb k k0).
  - intros [= ->]. cbn [map snd count_done List.length].
    unfold bool_truthy.
    destruct (ItemResponse.is_done v) as [[|]|]; split; lia.
  - intros Hget. destruct (IH Hget) as [Hlen Hcount].
    cbn [map snd count_done List.length]. rewrite Hcount.
    destruct (ItemResponse.is_done v0) as [[|]|]; split; lia.
Qed.

(** X13.  The counts of Stats are consistent for every store: completed is
    between 0 and the total, pending is the rest and is not negative, and
    the rate is the integer 0 exactly when the store is empty. *)
Theorem stats_counts_consistent (items_store : items_store_t) :
  let st := get_items_stats items_store in
  0 <= Stats.completed_items st <= Stats.total_items st
  /\ 0 <= Stats.pending_items st <= Stats.total_items st
  /\ Stats.completed_items st + Stats.pending_items st = Stats.total_items st
  /\ (Stats.completion_rate st = PyInt 0 <-> items_store = []).
Proof.
  cbv zeta. destruct (stats_counts items_store) as (Ht & Hc & Hp).
  pose proof (count_done_bounds (dict_values items_store)) as Hb.
  assert (Hlen : List.length (dict_values items_store)
                 = List.length items_store)
    by (unfold dict_values; apply length_map).
  rewrite Hlen in Hb.
  rewrite Ht, Hc, Hp. repeat (split; [lia|]).
  unfold get_items_stats, dict_len; cbn [Stats.completion_rate].
  destruct items_store as [|kv items_store].
  - split; reflexivity.
  - destruct (Z.ltb_spec 0 (Z.of_nat (List.length (kv :: items_store))))
      as [_|Hle]; [split; discriminate|].
    simpl List.length in Hle. lia.
Qed.

(** X14.  A creation under an unused identifier raises the total of Stats
    by one, and raises completed by one when the item is created done and
    pending by one when it is not. *)
Theorem create_item_moves_stats (items_store : items_store_t)
    (item_id : UUID) (now : datetime) (item : ItemCreate.t) :
  dict_get items_store item_id = None ->
  let before := get_items_stats items_store in
  let after :=
    get_items_stats (fst (create_item items_store item_id now item)) in
  Stats.total_items after = Stats.total_items before + 1
  /\ Stats.completed_items after
     = Stats.completed_items before
       + (if ItemCreate.is_done item then 1 else 0)
  /\ Stats.pending_items after
     = Stats.pending_items before
       + (if ItemCreate.is_done item then 0 else 1).
Proof.
  intros Hfresh. cbv zeta.
  destruct (stats_counts items_store) as (-> & -> & ->).
  destruct (stats_counts (fst (create_item items_store item_id now item)))
    as (-> & -> & ->).
  unfold create_item; cbn [fst]. rewrite dict_set_fresh by exact Hfresh.
  unfold dict_values. rewrite map_app, length_app, count_done_app.
  cbn [map snd count_done List.length ItemResponse.is_done].
  destruct (ItemCreate.is_done item); lia.
Qed.

(** X15.  Deleting a stored item lowers the total of Stats by one, and
    lowers completed by one when the item was done and pending by one when
    it was not. *)
Theorem delete_item_moves_stats (items_store : items_store_t)
    (item_id : UUID) (item : ItemResponse.t) :
  dict_get items_store item_id = Some item ->
  ItemResponse.id item = item_id ->
  exists items_store',
    delete_item items_store item = Ok items_store'
    /\ Stats.total_items (get_items_stats items_store')
       = Stats.total_items (get_items_stats items_store) - 1
    /\ Stats.completed_items (get_items_stats items_store')
       = Stats.completed_items (get_items_stats items_store)
         - (if bool_truthy (ItemResponse.is_done item) then 1 else 0)
    /\ Stats.pending_items (get_items_stats items_store')
       = Stats.pending_items (get_items_stats items_store)
         - (if bool_truthy (ItemResponse.is_done item) then 0 else 1).
Proof.
  intros Hget Hid. exists (dict_remove items_store item_id). split.
  - unfold delete_item, dict_del. rewrite Hid.
    now rewrite (dict_contains_get _ _ _ Hget).
  - destruct (stats_counts items_store) as (-> & -> & ->).
    destruct (stats_counts (dict_remove items_store item_id))
      as (-> & -> & ->).
    destruct (dict_remove_counts items_store item_id item Hget)
      as [-> ->].
    destruct (bool_truthy (ItemResponse.is_done item)); lia.
Qed.

Section UpdateRoundTrip.
Context `{PyRuntime}.

(** X16.  Update then Get: after an update that supplies at least one
    field and passes validation, Get on the same identifier is answered 200
    with the item the update returned, and reads without changing the
    store. *)
Theorem update_then_get (items_store : items_store_t) (env env' : Env.t)
    (item_id : UUID) (item : ItemResponse.t) (body : ItemUpdateBody.t) :
  dict_get items_store item_id = Some item ->
  update_body_nonempty body -> update_body_valid body ->
  let updated := app items_store env (PUT_item item_id body) in
  app (fst updated) env' (GET_item item_id) = (fst updated, snd updated)
  /\ snd updated
     = Response.mk 200
         (JSONContent (encode_item (updated_item item body (Env.now env)))).
Proof.
  intros Hget Hne Hvalid updated.
  assert (Hupdated :
            updated
            = (dict_set items_store item_id
                 (updated_item item body (Env.now env)),
               Response.mk 200
                 (JSONContent
                    (encode_item (updated_item item body (Env.now env)))))).
  { unfold updated, app, route. rewrite (get_item_by_id_found _ _ _ Hget).
    destruct (update_item_applies items_store item_id (Env.now env)
                body item Hne Hvalid) as (item_update & Hval & Hupd).
    cbn [bind]. rewrite Hval. cbn [bind]. now rewrite Hupd. }
  rewrite Hupdated. cbn [fst snd]. split; [|reflexivity].
  unfold app, route.
  rewrite (get_item_by_id_found _ _ (updated_item item body (Env.now env)));
    [reflexivity|].
  rewrite dict_get_set. now rewrite N.eqb_refl.
Qed.

End UpdateRoundTrip.

(* ===================================================================== *)
(** ** Update keeps the place of the item in the listing *)
(* ===================================================================== *)

Lemma insert_reverse_map {A : Type} (key : A -> Z) (g : A -> A) (x : A)
    (l : list A) :
  key (g x) = key x -> (forall y, In y l -> key (g y) = key y) ->
  insert_reverse key (g x) (map g l) = map g (insert_reverse key x l).
Proof.
  intros Hx. induction l as [|y l IH]; intros Hl; [reflexivity|].
  cbn [map insert_reverse]. rewrite Hx, (Hl y) by now left.
  destruct (key x <? key y); [|reflexivity].
  cbn [map]. f_equal. apply IH. intros z Hz; apply Hl; now right.
Qed.

Lemma sort_reverse_map {A : Type} (key : A -> Z) (g : A -> A) (l : list A) :
  (forall y, In y l -> key (g y) = key y) ->
  sort_reverse key (map g l) = map g (sort_reverse key l).
Proof.
  induction l as [|x l IH]; intros Hl; [reflexivity|].
  cbn [map sort_reverse fold_right].
  change (fold_right (insert_reverse key) [] (map g l))
    with (sort_reverse key (map g l)).
  change (fold_right (insert_reverse key) [] l) with (sort_reverse key l).
  rewrite IH by (intros y Hy; apply Hl; now right).
  apply insert_reverse_map; [apply Hl; now left|].
  intros y Hy. apply In_sort_reverse in Hy. apply Hl; now right.
Qed.

Lemma dict_In_get (d : items_store_t) (k : UUID) (v : ItemResponse.t) :
  dict_wf d -> In (k, v) d -> dict_get d k = Some v.
Proof.
  unfold dict_wf. induction d as [|[k0 v0] d IH]; [contradiction|].
  cbn [map fst dict_get]. intros Hwf Hin.
  apply NoDup_cons_iff in Hwf as [Hnotin Hwf].
  destruct Hin as [[= -> ->]|Hin]; [now rewrite N.eqb_refl|].
  destruct (N.eqb_spec k k0) as [E|_]; [|now apply IH].
  subst k0. exfalso. apply Hnotin.
  now apply (in_map fst) in Hin.
Qed.

(** The values of a dict after an assignment to a key that is present. *)
Lemma dict_values_set (d : items_store_t) (k : UUID)
    (v v' : ItemResponse.t) :
  dict_wf d -> ids_consistent d -> dict_get d k = Some v ->
  dict_values (dict_set d k v')
  = map (fun x => if N.eqb (ItemResponse.id x) k then v' else x)
      (dict_values d).
Proof.
  unfold dict_wf, ids_consistent, dict_values.
  induction d as [|[k0 v0] d IH]; [discriminate|].
  cbn [map fst snd dict_get dict_set]. intros Hwf Hids Hget.
  apply NoDup_cons_iff in Hwf as [Hnotin Hwf].
  apply Forall_cons_iff in Hids as [Hid0 Hids]. cbn in Hid0. rewrite Hid0.
  clear Hid0.
  destruct (N.eqb_spec k k0) as [E|Hk].
  - subst k0. rewrite N.eqb_refl. cbn [map snd]. f_equal.
    rewrite <- (map_id (map snd d)) at 1. apply map_ext_in.
    intros x Hx.
    destruct (N.eqb_spec (ItemResponse.id x) k) as [E|_]; [|reflexivity].
    exfalso. apply Hnotin. apply in_map_iff in Hx as [[kx vx] [Ex Hx]].
    cbn in Ex. subst vx. rewrite Forall_forall in Hids.
    pose proof (Hids _ Hx) as Hidx. cbn in Hidx.
    apply (in_map fst) in Hx. cbn in Hx. congruence.
  - destruct (N.eqb_spec k0 k) as [E|_]; [now contradiction Hk|].
    cbn [map snd]. f_equal. now apply IH.
Qed.

Section UpdatePlace.
Context `{PyRuntime}.

(** X17.  An update does not move an item in the listing: the unfiltered
    List after the update is the List before it with the updated item in
    the place of the old one, every other item where it was. *)
Theorem update_keeps_place_in_list (items_store : items_store_t)
    (env : Env.t) (item_id : UUID) (item : ItemResponse.t)
    (body : ItemUpdateBody.t) (limit skip : Z) :
  dict_wf items_store -> ids_consistent items_store ->
  dict_get items_store item_id = Some item ->
  update_body_nonempty body -> update_body_valid body ->
  0 <= limit -> 0 <= skip ->
  exists page,
    list_items items_store limit skip None None = Ok page
    /\ list_items (fst (app items_store env (PUT_item item_id body)))
         limit skip None None
       = Ok (map (fun x =>
                    if N.eqb (ItemResponse.id x) item_id
                    then updated_item item body (Env.now env) else x)
               page).
Proof.
  intros Hwf Hids Hget Hne Hvalid Hlimit Hskip.
  assert (Hstore : fst (app items_store env (PUT_item item_id body))
                   = dict_set items_store item_id
                       (updated_item item body (Env.now env))).
  { unfold app, route. rewrite (get_item_by_id_found _ _ _ Hget).
    destruct (update_item_applies items_store item_id (Env.now env)
                body item Hne Hvalid) as (item_update & Hval & Hupd).
    cbn [bind]. rewrite Hval. cbn [bind]. now rewrite Hupd. }
  assert (Hall : forall l : list ItemResponse.t,
             filter (spec_passes None None) l = l).
  { induction l as [|x l IH]; simpl; [reflexivity | now rewrite IH]. }
  eexists. split.
  - rewrite list_items_pipeline; try assumption; try discriminate;
      [reflexivity | intros Hn; now contradiction Hn].
  - rewrite Hstore.
    rewrite list_items_pipeline; try assumption; try discriminate;
      [|intros Hn; now contradiction Hn].
    rewrite !Hall, (dict_values_set _ _ item) by assumption.
    rewrite sort_reverse_map, skipn_map, firstn_map; [reflexivity|].
    intros y Hy.
    destruct (N.eqb_spec (ItemResponse.id y) item_id) as [E|_];
      [|reflexivity].
    unfold dict_values in Hy. apply in_map_iff in Hy as [[ky vy] [Ey Hy]].
    cbn in Ey. subst vy.
    assert (Hky : ky = item_id).
    { unfold ids_consistent in Hids. rewrite Forall_forall in Hids.
      pose proof (Hids _ Hy) as Hidy. cbn in Hidy. congruence. }
    subst ky. rewrite (dict_In_get _ _ _ Hwf Hy) in Hget.
    injection Hget as ->. reflexivity.
Qed.

End UpdatePlace.

(* ===================================================================== *)
(** ** Those theorems at concrete stores and requests *)
(* ===================================================================== *)

Ltac store_ABC_facts :=
  first
    [ reflexivity
    | lia
    | discriminate
    | unfold dict_wf; simpl;
      repeat (apply NoDup_cons || apply NoDup_nil); simpl;
      intuition discriminate
    | unfold ids_consistent;
      repeat (apply Forall_cons || apply Forall_nil); reflexivity
    | unfold texts_valid;
      repeat (apply Forall_cons || apply Forall_nil);
      unfold text_valid; simpl; split; vm_compute; discriminate ].

Lemma list_page_within_bounds_witness :
  exists page,
    @list_items example_runtime store_ABC 2 1 (Some true) (Some "item")
    = Ok page
    /\ Z.of_nat (List.length page) <= 2
    /\ (forall item, In item page ->
          In item (dict_values store_ABC)
          /\ @spec_passes example_runtime (Some true) (Some "item") item
             = true)
    /\ (dict_len store_ABC <= 1 -> page = []).
Proof.
  apply (@list_page_within_bounds example_runtime store_ABC 2 1 (Some true)
           (Some "item")); store_ABC_facts.
Defined.


Lemma created_item_listed_first_witness :
  let (items_store', new_item) :=
    create_item store_ABC 4%N 9 (ItemCreate.mk "Item 4" false) in
  exists rest,
    @list_items example_runtime store_ABC (2 - 1) 0 None None = Ok rest
    /\ @list_items example_runtime items_store' 2 0 None None
       = Ok (new_item :: rest).
Proof.
  apply (@created_item_listed_first example_runtime store_ABC 4%N 9
           (ItemCreate.mk "Item 4" false) 2).
  - reflexivity.
  - intros stored [<-|[<-|[<-|[]]]]; simpl; lia.
  - lia.
Defined.

(** Two creations that draw the same identifier, then a deletion. *)
Lemma run_keeps_ids_unique_witness :
  let trace :=
    [(Env.mk 1 1%N, POST_items (ItemCreateBody.mk "first" None));
     (Env.mk 2 1%N, POST_items (ItemCreateBody.mk "second" (Some true)));
     (Env.mk 3 2%N, POST_items (ItemCreateBody.mk "third" None));
     (Env.mk 4 5%N, DELETE_item 2%N)] in
  dict_wf (@run example_runtime [] trace)
  /\ ids_consistent (@run example_runtime [] trace)
  /\ NoDup (map ItemResponse.id (dict_values (@run example_runtime [] trace))).
Proof.
  apply (@run_keeps_ids_unique example_runtime []).
  - apply NoDup_nil.
  - apply Forall_nil.
Defined.

Lemma requests_keep_text_bounds_witness :
  texts_valid
    (fst (@app example_runtime store_ABC (Env.mk 9 4%N)
            (PUT_item 2%N (ItemUpdateBody.mk (Some (Some "New text")) None)))).
Proof.
  apply (@requests_keep_text_bounds example_runtime store_ABC (Env.mk 9 4%N)
           (PUT_item 2%N (ItemUpdateBody.mk (Some (Some "New text")) None))).
  - store_ABC_facts.
  - simpl. discriminate.
Defined.

Lemma no_internal_server_error_witness :
  In (Response.status_code
        (snd (@app example_runtime store_ABC (Env.mk 9 4%N)
                (GET_items None None None (Some "item")))))
    [200; 201; 204; 404; 422].
Proof.
  apply (@no_internal_server_error example_runtime store_ABC (Env.mk 9 4%N)
           (GET_items None None None (Some "item"))); store_ABC_facts.
Defined.

(** An update with an invalid body of an identifier that is not stored. *)
Lemma unknown_identifier_not_found_witness :
  @app example_runtime store_ABC (Env.mk 9 4%N)
    (PUT_item 7%N (ItemUpdateBody.mk (Some (Some "")) None))
  = (store_ABC, @not_found_response example_runtime 9 7%N).
Proof.
  apply (@unknown_identifier_not_found example_runtime store_ABC
           (Env.mk 9 4%N)
           (PUT_item 7%N (ItemUpdateBody.mk (Some (Some "")) None)) 7%N);
    reflexivity.
Defined.

Lemma create_item_moves_stats_witness :
  let before := get_items_stats store_ABC in
  let after :=
    get_items_stats
      (fst (create_item store_ABC 4%N 9 (ItemCreate.mk "Item 4" true))) in
  Stats.total_items after = Stats.total_items before + 1
  /\ Stats.completed_items after = Stats.completed_items before + 1
  /\ Stats.pending_items after = Stats.pending_items before + 0.
Proof.
  apply (create_item_moves_stats store_ABC 4%N 9
           (ItemCreate.mk "Item 4" true)).
  reflexivity.
Defined.

Lemma delete_item_moves_stats_witness :
  exists items_store',
    delete_item store_ABC item_B = Ok items_store'
    /\ Stats.total_items (get_items_stats items_store')
       = Stats.total_items (get_items_stats store_ABC) - 1
    /\ Stats.completed_items (get_items_stats items_store')
       = Stats.completed_items (get_items_stats store_ABC) - 0
    /\ Stats.pending_items (get_items_stats items_store')
       = Stats.pending_items (get_items_stats store_ABC) - 1.
Proof.
  apply (delete_item_moves_stats store_ABC 2%N item_B); reflexivity.
Defined.

Lemma update_then_get_witness :
  let body := ItemUpdateBody.mk None (Some (Some true)) in
  let updated :=
    @app example_runtime store_ABC (Env.mk 9 4%N) (PUT_item 2%N body) in
  @app example_runtime (fst updated) (Env.mk 10 5%N) (GET_item 2%N)
  = (fst updated, snd updated)
  /\ snd updated
     = Response.mk 200
         (JSONContent
            (@encode_item example_runtime (updated_item item_B body 9))).
Proof.
  apply (@update_then_get example_runtime store_ABC (Env.mk 9 4%N)
           (Env.mk 10 5%N) 2%N item_B
           (ItemUpdateBody.mk None (Some (Some true)))).
  - reflexivity.
  - right; discriminate.
  - exact I.
Defined.

Lemma update_keeps_place_in_list_witness :
  let body := ItemUpdateBody.mk (Some (Some "Renamed")) None in
  exists page,
    @list_items example_runtime store_ABC 10 0 None None = Ok page
    /\ @list_items example_runtime
         (fst (@app example_runtime store_ABC (Env.mk 9 4%N)
                 (PUT_item 2%N body))) 10 0 None None
       = Ok (map (fun x =>
                    if N.eqb (ItemResponse.id x) 2%N
                    then updated_item item_B body 9 else x)
               page).
Proof.
  apply (@update_keeps_place_in_list example_runtime store_ABC
           (Env.mk 9 4%N) 2%N item_B
           (ItemUpdateBody.mk (Some (Some "Renamed")) None) 10 0);
    first [ store_ABC_facts
          | left; discriminate
          | split; vm_compute; discriminate ].
Defined.

(* ===================================================================== *)
(** ** Where the listing and the timestamp order break *)
(* ===================================================================== *)

(** C3.  The claim fails on a store the service itself builds: after a
    creation (answered 201) and an update of the created item whose body
    carries [text: null] (answered 200), a List with valid arguments and
    the search term "milk" raises [AttributeError] and the request is
    answered 500, where the claim has it return the matching items. *)
Lemma list_search_after_null_text_raises :
  let create := POST_items (ItemCreateBody.mk "Buy milk" None) in
  let update := PUT_item 1%N (ItemUpdateBody.mk (Some None) None) in
  let items_store :=
    @run example_runtime [] [(Env.mk 1 1%N, create); (Env.mk 2 2%N, update)] in
  Response.status_code (snd (@app example_runtime [] (Env.mk 1 1%N) create))
  = HTTP_201_CREATED
  /\ Response.status_code
       (snd (@app example_runtime
               (fst (@app example_runtime [] (Env.mk 1 1%N) create))
               (Env.mk 2 2%N) update))
     = 200
  /\ items_store = [(1%N, ItemResponse.mk None (Some false) 1%N 1 (Some 2))]
  /\ validate_list_query 10 0 (Some "milk") = []
  /\ @list_items example_runtime items_store 10 0 None (Some "milk")
     = Raise AttributeError
  /\ Response.status_code
       (snd (@app example_runtime items_store (Env.mk 3 3%N)
               (GET_items None None None (Some "milk"))))
     = 500.
Proof.
  cbv zeta. repeat (split; [reflexivity|]). reflexivity.
Qed.

(** C8 as stated fails: the store of the three items created at the clock
    readings 1, 2 and 3 has its timestamps in order; an update of item B
    at a clock that has gone back to 1 sets [updated_at] to 1, before the
    item's [created_at] of 2, and the timestamps of the store are no longer
    in order. *)
Lemma update_before_creation_counterexample :
  let after :=
    fst (@app example_runtime store_ABC (Env.mk 1 4%N)
           (PUT_item 2%N (ItemUpdateBody.mk None (Some (Some true))))) in
  dict_wf store_ABC
  /\ store_timestamps_ordered store_ABC
  /\ dict_get after 2%N
     = Some (ItemResponse.mk (Some "Item 2") (Some true) 2%N 2 (Some 1))
  /\ ~ store_timestamps_ordered after.
Proof.
  cbv zeta. split; [|split; [|split]].
  - unfold dict_wf; simpl.
    repeat (apply NoDup_cons || apply NoDup_nil); simpl;
      intuition discriminate.
  - unfold store_timestamps_ordered, store_ABC.
    repeat (apply Forall_cons || apply Forall_nil); exact I.
  - reflexivity.
  - intros Hordered. unfold store_timestamps_ordered in Hordered.
    rewrite Forall_forall in Hordered.
    specialize (Hordered
                  (2%N, ItemResponse.mk (Some "Item 2") (Some true) 2%N 2
                          (Some 1))).
    unfold timestamps_ordered in Hordered. cbn in Hordered.
    assert (Hle : 2 <= 1) by (apply Hordered; right; left; reflexivity).
    lia.
Qed.
